(** * PDFGenerator: a shallow embedding of [src/PDFGenerator.ts]

    The class [PDFGenerator] keeps two mutable fields ([data] and
    [pdfOptions]), drives puppeteer to print HTML to PDF and joins PDF
    buffers with muhammara.  The embedding keeps

    - the instances in a store indexed by object references, so that
      [return this] can be told apart from returning a copy;
    - puppeteer and [fs] as oracles over the history of the calls made so
      far, each call being recorded in a trace;
    - muhammara as an interface of pure operations on readers and writers;
    - JavaScript exceptions as the [Throw] outcome of a computation;
    - for the stream form, the calls to [fs], the clock and the random
      source in a second trace, with the listeners put on streams. *)

From Stdlib Require Import ZArith Strings.Byte.
From stdpp Require Import base option list strings gmap functions pretty.

(** ** JavaScript values *)

Inductive JsValue :=
| VUndefined
| VBool (b : bool)
| VNum (n : Z)
| VStr (s : string).

(** A plain object literal: its own enumerable properties. *)
Abbreviation JsObject := (gmap string JsValue).

(** puppeteer's [PDFOptions] and [PaperFormat]. *)
Abbreviation PDFOptions := (gmap string JsValue).
Definition PaperFormat := string.

(** A node [Buffer]. *)
Definition Buffer := list Byte.byte.

(** What a [throw] carries: an [Error] object (its [name] and [message]) or
    a bare string. *)
Inductive JsThrown :=
| ErrorObj (name message : string)
| ThrownStr (s : string).

(** [new Error(msg)] *)
Definition new_Error (msg : string) : JsThrown := ErrorObj "Error" msg.

(** Truthiness of a string: every string but the empty one. *)
Definition truthy (s : string) : bool :=
  match s with
  | EmptyString => false
  | String _ _ => true
  end.

(** Truthiness of an optional string property: [undefined] is falsy. *)
Definition truthy_opt (o : option string) : bool :=
  match o with
  | Some s => truthy s
  | None => false
  end.

(** [Error.prototype.toString], and the identity on a thrown string. *)
Definition toString (e : JsThrown) : string :=
  match e with
  | ErrorObj name msg =>
      if truthy name then
        if truthy msg then name +:+ ": " +:+ msg else name
      else msg
  | ThrownStr s => s
  end.

(** [error.message || error] *)
Definition message_or_self (error : JsThrown) : string + JsThrown :=
  match error with
  | ErrorObj _ msg => if truthy msg then inl msg else inr error
  | ThrownStr _ => inr error
  end.

(** The value [v] inside a template literal. *)
Definition template (v : string + JsThrown) : string :=
  match v with
  | inl s => s
  | inr e => toString e
  end.

(** The double quote and the line feed of the message of [fromFile]. *)
Definition dquote : string := String (Ascii.ascii_of_nat 34) EmptyString.
Definition newline : string := String (Ascii.ascii_of_nat 10) EmptyString.

(** [{ ...target, ...source }] where [target] was written first: the
    properties of [source] are copied over those of [target]; spreading
    [undefined] copies nothing. *)
Definition object_spread (target : JsObject) (source : option JsObject) : JsObject :=
  match source with
  | Some src => src ∪ target
  | None => target
  end.

(** [s] occurs inside [msg]. *)
Definition contains (msg s : string) : Prop :=
  exists pre post, msg = pre +:+ s +:+ post.

(** ** Outcomes *)

Inductive Outcome (A : Type) :=
| Return (a : A)
| Throw (e : JsThrown).
Arguments Return {A} a.
Arguments Throw {A} e.

Definition is_Return {A} (r : Outcome A) : bool :=
  match r with
  | Return _ => true
  | Throw _ => false
  end.

Global Instance Outcome_ret : MRet Outcome := fun A a => Return a.
Global Instance Outcome_bind : MBind Outcome := fun A B k r =>
  match r with
  | Return a => k a
  | Throw e => Throw e
  end.

(** ** The interface of [export interface IPageRenderData] *)

Module IPageRenderData.
Record t := {
  content : option string;
  templatePath : option string;
  pdfOptions : option PDFOptions;
  props : option JsObject
}.
End IPageRenderData.

(** ** The instance fields of [class PDFGenerator] *)

Record PDFGenerator := {
  data : string;
  pdfOptions : PDFOptions
}.

(** ** The world: object store, console and trace of collaborator calls *)

Definition ref := nat.
Definition handle := nat.

Inductive Event :=
| EReadFile (filePath : string) (r : Outcome string)
| ELaunch (r : Outcome handle)
| ENewPage (browser : handle) (r : Outcome handle)
| EEvaluate (page : handle) (props : JsObject) (r : Outcome unit)
| ESetContent (page : handle) (html : string) (r : Outcome unit)
| EPdf (page : handle) (options : PDFOptions) (r : Outcome Buffer)
| EClose (browser : handle) (r : Outcome unit).

Record World := {
  heap : ref -> PDFGenerator;
  next_ref : ref;
  console : list (string + JsThrown);
  trace : list Event
}.

(** [fs.promises.readFile(_, "utf-8")] and puppeteer.  Each answer may
    depend on everything that happened before. *)
Record Runtime := {
  readFile : list Event -> string -> Outcome string;
  launch : list Event -> Outcome handle;
  newPage : list Event -> handle -> Outcome handle;
  evaluate : list Event -> handle -> JsObject -> Outcome unit;
  setContent : list Event -> handle -> string -> Outcome unit;
  pdf : list Event -> handle -> PDFOptions -> Outcome Buffer;
  close : list Event -> handle -> Outcome unit
}.

(** muhammara, with the memory stream the writer is bound to.
    [PDFRStreamForBuffer] receives [None] when it is handed [undefined];
    [pdfWriter_end w] is [pdfWriter.end()] followed by
    [outStream.toBuffer()]. *)
Record Hummus := {
  Reader : Type;
  Writer : Type;
  PDFRStreamForBuffer : option Buffer -> Outcome Reader;
  createWriterToModify : Reader -> Outcome Writer;
  appendPDFPagesFromPDF : Writer -> Reader -> Outcome Writer;
  pdfWriter_end : Writer -> Outcome Buffer
}.

(** ** The monad of asynchronous methods: state and exceptions *)

Definition M (A : Type) : Type := World -> Outcome A * World.

Global Instance M_ret : MRet M := fun A a w => (Return a, w).
Global Instance M_bind : MBind M := fun A B k m w =>
  match m w with
  | (Return a, w') => k a w'
  | (Throw e, w') => (Throw e, w')
  end.

Definition throw {A} (e : JsThrown) : M A := fun w => (Throw e, w).

Definition try_catch {A} (body : M A) (handler : JsThrown -> M A) : M A :=
  fun w =>
    match body w with
    | (Return a, w') => (Return a, w')
    | (Throw e, w') => handler e w'
    end.

(** A synchronous call that touches neither the store nor the trace. *)
Definition lift {A} (r : Outcome A) : M A := fun w => (r, w).

Definition console_error (v : string + JsThrown) : M unit := fun w =>
  (Return tt,
   {| heap := heap w; next_ref := next_ref w;
      console := console w ++ [v]; trace := trace w |}).

(** A call to a collaborator: ask the oracle, record the call. *)
Definition perform {A} (oracle : list Event -> Outcome A) (ev : Outcome A -> Event) : M A :=
  fun w =>
    let r := oracle (trace w) in
    (r, {| heap := heap w; next_ref := next_ref w;
           console := console w; trace := trace w ++ [ev r] |}).

Definition get_field {A} (this : ref) (field : PDFGenerator -> A) : M A :=
  fun w => (Return (field (heap w this)), w).

Definition set_this (this : ref) (f : PDFGenerator -> PDFGenerator) : M unit :=
  fun w =>
    (Return tt,
     {| heap := <[this := f (heap w this)]> (heap w); next_ref := next_ref w;
        console := console w; trace := trace w |}).

(** ** The methods *)

Section Methods.
Context (rt : Runtime) (hm : Hummus).

(** [constructor(format: PaperFormat = "A4")] *)
Definition constructor (format : option PaperFormat) : PDFGenerator :=
  {| data := EmptyString;
     pdfOptions := {[ "format" := VStr (default "A4" format) ]} |}.

(** [new PDFGenerator(format)] *)
Definition new_PDFGenerator (format : option PaperFormat) : M ref :=
  fun w =>
    (Return (next_ref w),
     {| heap := <[next_ref w := constructor format]> (heap w);
        next_ref := S (next_ref w);
        console := console w; trace := trace w |}).

Definition setPdfOptions (this : ref) (pdfOptions : PDFOptions) : M ref :=
  set_this this (fun g => {| data := data g; pdfOptions := pdfOptions |});;
  mret this.

Definition fromContent (this : ref) (data : string) : M ref :=
  set_this this (fun g => {| data := data; pdfOptions := g.(pdfOptions) |});;
  mret this.

Definition fromFile (this : ref) (filePath : string) : M ref :=
  try_catch
    (fileContent ← perform (fun h => readFile rt h filePath) (EReadFile filePath);
     set_this this (fun g => {| data := fileContent; pdfOptions := g.(pdfOptions) |});;
     mret this)
    (fun error =>
       console_error (message_or_self error);;
       throw (new_Error ("Error reading file at path: " +:+ dquote +:+ filePath
                         +:+ dquote +:+ newline +:+ toString error))).

Definition generatePdf (this : ref) (props : option JsObject) : M Buffer :=
  let props := default {[ "pageNumber" := VNum 1 ]} props in
  try_catch
    (browser ← perform (launch rt) ELaunch;
     page ← perform (fun h => newPage rt h browser) (ENewPage browser);
     perform (fun h => evaluate rt h page props) (EEvaluate page props);;
     html ← get_field this data;
     perform (fun h => setContent rt h page html) (ESetContent page html);;
     options ← get_field this pdfOptions;
     pdfBuffer ← perform (fun h => pdf rt h page options) (EPdf page options);
     perform (fun h => close rt h browser) (EClose browser);;
     mret pdfBuffer)
    (fun error =>
       console_error (message_or_self error);;
       throw (new_Error ("Generate PDF Error: " +:+ template (message_or_self error)))).

(** [buffers.forEach(...)] of [mergePDFs]. *)
Fixpoint forEach_append (pdfWriter : Writer hm) (buffers : list Buffer) : Outcome (Writer hm) :=
  match buffers with
  | [] => Return pdfWriter
  | buffer :: rest =>
      newPdfStream ← PDFRStreamForBuffer hm (Some buffer);
      pdfWriter' ← appendPDFPagesFromPDF hm pdfWriter newPdfStream;
      forEach_append pdfWriter' rest
  end.

(** [mergePDFs(buffers)]: the outcome, and the elements the caller's
    array holds afterwards ([buffers.shift()] runs once the writer is
    open). *)
Definition mergePDFs (buffers : list Buffer) : Outcome Buffer * list Buffer :=
  let first := head buffers in
  match PDFRStreamForBuffer hm first with
  | Throw e => (Throw e, buffers)
  | Return firstPdfStream =>
      match createWriterToModify hm firstPdfStream with
      | Throw e => (Throw e, buffers)
      | Return pdfWriter =>
          let buffers := tail buffers in
          (pdfWriter' ← forEach_append pdfWriter buffers;
           pdfWriter_end hm pdfWriter',
           buffers)
      end
  end.

(** The body of the loop of [generateMultiPagePdf], [i] already
    incremented. *)
Definition page_step (this : ref) (i : nat) (page : IPageRenderData.t) : M Buffer :=
  (if truthy_opt (IPageRenderData.templatePath page) then
     fromFile this (default EmptyString (IPageRenderData.templatePath page));; mret tt
   else if truthy_opt (IPageRenderData.content page) then
     set_this this (fun g => {| data := default EmptyString (IPageRenderData.content page);
                                pdfOptions := g.(pdfOptions) |})
   else mret tt);;
  setPdfOptions this (default ∅ (IPageRenderData.pdfOptions page));;
  generatePdf this
    (Some (object_spread {[ "pageNumber" := VNum (Z.of_nat i) ]} (IPageRenderData.props page))).

(** [for (const page of pageData) { i++; ... buffers.push(file) }] *)
Fixpoint for_pages (this : ref) (i : nat) (pageData : list IPageRenderData.t)
    (buffers : list Buffer) : M (list Buffer) :=
  match pageData with
  | [] => mret buffers
  | page :: rest =>
      file ← page_step this (S i) page;
      for_pages this (S i) rest (buffers ++ [file])
  end.

Definition generateMultiPagePdf (this : ref) (pageData : list IPageRenderData.t) : M Buffer :=
  try_catch
    (buffers ← for_pages this 0 pageData [];
     totalBuffer ← lift (mergePDFs buffers).1;
     mret totalBuffer)
    (fun error =>
       console_error (message_or_self error);;
       throw (new_Error ("Generate Multi Page PDF Error: "
                         +:+ template (message_or_self error)))).

End Methods.

(** ** Reading a trace *)

(** The events a run added to the trace. *)
Definition new_events (w w' : World) : list Event :=
  drop (length (trace w)) (trace w').

(** The parameter objects handed to [page.evaluate], in order. *)
Definition evaluated (tr : list Event) : list JsObject :=
  omap (fun ev => match ev with EEvaluate _ props _ => Some props | _ => None end) tr.

(** The documents handed to [page.setContent], in order. *)
Definition loaded (tr : list Event) : list string :=
  omap (fun ev => match ev with ESetContent _ html _ => Some html | _ => None end) tr.

(** The paths handed to [readFile], in order. *)
Definition read_paths (tr : list Event) : list string :=
  omap (fun ev => match ev with EReadFile filePath _ => Some filePath | _ => None end) tr.

(** The browsers [puppeteer.launch] returned. *)
Definition launched (tr : list Event) : list handle :=
  omap (fun ev => match ev with ELaunch (Return b) => Some b | _ => None end) tr.

(** The browsers [browser.close()] was called on. *)
Definition closed (tr : list Event) : list handle :=
  omap (fun ev => match ev with EClose b _ => Some b | _ => None end) tr.

(** The sessions acquired and never released. *)
Definition open_sessions (tr : list Event) : list handle :=
  list_difference (launched tr) (closed tr).

(** ** A contract for muhammara

    [pages_of b] is the page sequence of the document [b] encodes, when it
    encodes one; [writer_pages] is the page sequence a writer has
    accumulated. *)
Record PdfModel (hm : Hummus) := {
  Page : Type;
  pages_of : Buffer -> option (list Page);
  writer_pages : Writer hm -> list Page
}.
Arguments Page {hm} _.
Arguments pages_of {hm} _ _.
Arguments writer_pages {hm} _ _.

Record HummusLaws (hm : Hummus) (md : PdfModel hm) : Prop := {
  (* a buffer that holds a document can be opened for reading *)
  law_open : forall b d,
    pages_of md b = Some d -> is_Return (PDFRStreamForBuffer hm (Some b)) = true;
  (* a writer opened on a base document starts with the pages of the base *)
  law_modify : forall b d r,
    pages_of md b = Some d -> PDFRStreamForBuffer hm (Some b) = Return r ->
    exists w, createWriterToModify hm r = Return w /\ writer_pages md w = d;
  (* appending a document adds its pages, in their order, at the end *)
  law_append : forall b d r w,
    pages_of md b = Some d -> PDFRStreamForBuffer hm (Some b) = Return r ->
    exists w', appendPDFPagesFromPDF hm w r = Return w'
               /\ writer_pages md w' = writer_pages md w ++ d;
  (* ending the writer yields a buffer that holds what was accumulated *)
  law_end : forall w,
    exists out, pdfWriter_end hm w = Return out
                /\ pages_of md out = Some (writer_pages md w)
}.

(** muhammara refuses a base document that is [undefined]: either the
    reader or the writer throws. *)
Definition rejects_undefined (hm : Hummus) : Prop :=
  match PDFRStreamForBuffer hm None with
  | Throw _ => True
  | Return r => is_Return (createWriterToModify hm r) = false
  end.

(** ** The loop body of [generateMultiPagePdf], in parts *)

(** The parameter object of page [i]: [{ pageNumber: i, ...page.props }]. *)
Definition page_params (i : nat) (page : IPageRenderData.t) : JsObject :=
  object_spread {[ "pageNumber" := VNum (Z.of_nat i) ]} (IPageRenderData.props page).

(** The first statement of the loop body: which document is current. *)
Definition page_intake (rt : Runtime) (this : ref) (page : IPageRenderData.t) : M unit :=
  if truthy_opt (IPageRenderData.templatePath page) then
    fromFile rt this (default EmptyString (IPageRenderData.templatePath page));; mret tt
  else if truthy_opt (IPageRenderData.content page) then
    set_this this (fun g => {| data := default EmptyString (IPageRenderData.content page);
                               pdfOptions := g.(pdfOptions) |})
  else mret tt.

(** ** Concrete collaborators, to run the methods on *)

Module Scenario.

Definition byte_of_string (s : string) : Byte.byte :=
  match s with
  | EmptyString => Byte.x00
  | String a _ => Ascii.byte_of_ascii a
  end.

Definition enoent (filePath : string) : JsThrown :=
  new_Error ("ENOENT: no such file or directory, open '" +:+ filePath +:+ "'").

(** One file on disk; every render succeeds and prints one page, tagged
    with the first character of the document that was loaded. *)
Definition disk (filePath : string) : Outcome string :=
  if decide (filePath = "/templates/cover.html") then Return "<h1>Cover</h1>"
  else Throw (enoent filePath).

Definition last_loaded (h : list Event) : string :=
  default EmptyString (list.last (loaded h)).

Definition healthy : Runtime :=
  {| readFile := fun _ filePath => disk filePath;
     launch := fun h => Return (length (launched h));
     newPage := fun _ browser => Return browser;
     evaluate := fun _ _ _ => Return tt;
     setContent := fun _ _ _ => Return tt;
     pdf := fun h _ _ => Return [byte_of_string (last_loaded h)];
     close := fun _ _ => Return tt |}.

(** The same engine, except that printing fails. *)
Definition printer_down : Runtime :=
  {| readFile := readFile healthy;
     launch := launch healthy;
     newPage := newPage healthy;
     evaluate := evaluate healthy;
     setContent := setContent healthy;
     pdf := fun _ _ _ => Throw (new_Error "Protocol error (Page.printToPDF): Printing failed");
     close := close healthy |}.

(** A document is the list of its pages, one byte per page. *)
Definition pages : Hummus :=
  {| Reader := list Byte.byte;
     Writer := list Byte.byte;
     PDFRStreamForBuffer := fun b =>
       match b with
       | Some b => Return b
       | None => Throw (ErrorObj "TypeError"
                   "Cannot read properties of undefined (reading 'byteLength')")
       end;
     createWriterToModify := fun r => Return r;
     appendPDFPagesFromPDF := fun w r => Return (w ++ r);
     pdfWriter_end := fun w => Return w |}.

Definition pages_model : PdfModel pages :=
  Build_PdfModel pages Byte.byte (fun b => Some b) (fun w => w).

Definition w0 : World :=
  {| heap := fun _ => constructor None;
     next_ref := 1; console := []; trace := [] |}.

End Scenario.

(** Pages to run the loop on. *)
Module Booklet.
Import IPageRenderData.

Definition intro : t :=
  {| content := Some "<p>Introduction</p>"; templatePath := None;
     pdfOptions := None; props := None |}.

(** Both a literal document and a template, and parameters of its own. *)
Definition cover : t :=
  {| content := Some "<p>ignored</p>"; templatePath := Some "/templates/cover.html";
     pdfOptions := Some {[ "format" := VStr "Letter" ]};
     props := Some {[ "pageNumber" := VStr "ii"; "title" := VStr "Report" ]} |}.

Definition missing : t :=
  {| content := None; templatePath := Some "/templates/missing.html";
     pdfOptions := None; props := None |}.

(** A literal document and an empty template path. *)
Definition blank_path : t :=
  {| content := Some "<p>inline</p>"; templatePath := Some EmptyString;
     pdfOptions := None; props := None |}.
End Booklet.

(** More pages: one with nothing to render from, one whose content is
    the empty string. *)
Module Leaflet.
Import IPageRenderData.

Definition bare : t :=
  {| content := None; templatePath := None; pdfOptions := None; props := None |}.

Definition empty_content : t :=
  {| content := Some EmptyString; templatePath := None;
     pdfOptions := None; props := None |}.
End Leaflet.

(** ** More ways to read a trace *)

(** The options handed to [page.pdf], in order. *)
Definition printed_options (tr : list Event) : list PDFOptions :=
  omap (fun ev => match ev with EPdf _ options _ => Some options | _ => None end) tr.

(** The buffers [page.pdf] returned, in order. *)
Definition printed_buffers (tr : list Event) : list Buffer :=
  omap (fun ev => match ev with EPdf _ _ (Return b) => Some b | _ => None end) tr.

(** What a call threw, when it threw. *)
Definition failure {A} (r : Outcome A) : option JsThrown :=
  match r with
  | Return _ => None
  | Throw e => Some e
  end.

Definition thrown (ev : Event) : option JsThrown :=
  match ev with
  | EReadFile _ r => failure r
  | ELaunch r => failure r
  | ENewPage _ r => failure r
  | EEvaluate _ _ r => failure r
  | ESetContent _ _ r => failure r
  | EPdf _ _ r => failure r
  | EClose _ r => failure r
  end.

(** ** The stream form: [generatePdfStream]

    Besides puppeteer, [generatePdfStream] uses [path.join], [__dirname],
    [fs.existsSync], [fs.mkdirSync], [Date.now], [Math.random],
    [fs.createReadStream], [readStream.on] and [fs.promises.unlink].
    Their calls are recorded in a second trace, next to the [World]. *)

Inductive FsEvent :=
| EExistsSync (path : string) (r : bool)
| EMkdirSync (path : string) (r : Outcome unit)
| EDateNow (t : N)
| ERandom (n : N)
| ECreateReadStream (path : string) (r : Outcome handle)
| EUnlink (path : string) (r : Outcome unit).

(** The answers of node.  [Date_now] is the integer [Date.now()] returns;
    [random_10000] is the integer [Math.floor(Math.random() * 10000)]
    evaluates to. *)
Record StreamRuntime := {
  dirname : string;
  path_join : string -> string -> string;
  existsSync : list Event -> list FsEvent -> string -> bool;
  mkdirSync : list Event -> list FsEvent -> string -> Outcome unit;
  Date_now : list Event -> list FsEvent -> N;
  random_10000 : list Event -> list FsEvent -> N;
  createReadStream : list Event -> list FsEvent -> string -> Outcome handle;
  unlink : list Event -> list FsEvent -> string -> Outcome unit
}.

(** [close_listeners] holds, in the order of their registration, the
    listeners [() => fs.promises.unlink(path)] put on the ["close"] event of
    a stream: the stream, and the [path] the listener captured. *)
Record StreamWorld := {
  world : World;
  fs_trace : list FsEvent;
  close_listeners : list (handle * string)
}.

Definition SM (A : Type) : Type := StreamWorld -> Outcome A * StreamWorld.

Global Instance SM_ret : MRet SM := fun A a sw => (Return a, sw).
Global Instance SM_bind : MBind SM := fun A B k m sw =>
  match m sw with
  | (Return a, sw') => k a sw'
  | (Throw e, sw') => (Throw e, sw')
  end.

Definition stream_throw {A} (e : JsThrown) : SM A := fun sw => (Throw e, sw).

Definition stream_try_catch {A} (body : SM A) (handler : JsThrown -> SM A) : SM A :=
  fun sw =>
    match body sw with
    | (Return a, sw') => (Return a, sw')
    | (Throw e, sw') => handler e sw'
    end.

(** A step of [M] (puppeteer, the console, the fields), run inside [SM]. *)
Definition engine {A} (m : M A) : SM A := fun sw =>
  let '(r, w') := m (world sw) in
  (r, {| world := w'; fs_trace := fs_trace sw; close_listeners := close_listeners sw |}).

(** A call to node that may throw. *)
Definition fs_perform {A} (oracle : list Event -> list FsEvent -> Outcome A)
    (ev : Outcome A -> FsEvent) : SM A := fun sw =>
  let r := oracle (trace (world sw)) (fs_trace sw) in
  (r, {| world := world sw; fs_trace := fs_trace sw ++ [ev r];
         close_listeners := close_listeners sw |}).

(** A call to node that cannot throw. *)
Definition fs_ask {A} (oracle : list Event -> list FsEvent -> A)
    (ev : A -> FsEvent) : SM A := fun sw =>
  let r := oracle (trace (world sw)) (fs_trace sw) in
  (Return r, {| world := world sw; fs_trace := fs_trace sw ++ [ev r];
                close_listeners := close_listeners sw |}).

(** [readStream.on("close", () => fs.promises.unlink(path))] *)
Definition on_close (readStream : handle) (path : string) : SM unit := fun sw =>
  (Return tt,
   {| world := world sw; fs_trace := fs_trace sw;
      close_listeners := close_listeners sw ++ [(readStream, path)] |}).

(** [`pdf_${Date.now()}_${Math.floor(Math.random() * 10000)}.pdf`]: both
    numbers are integers, printed in decimal. *)
Definition randomFileName (now suffix : N) : string :=
  "pdf_" +:+ pretty now +:+ "_" +:+ pretty suffix +:+ ".pdf".

Section StreamMethods.
Context (rt : Runtime) (srt : StreamRuntime).

Definition generatePdfStream (this : ref) (props : option JsObject) : SM handle :=
  let props := default {[ "pageNumber" := VNum 1 ]} props in
  stream_try_catch
    (let tempFolderPath := path_join srt (dirname srt) "temp" in
     found ← fs_ask (fun h f => existsSync srt h f tempFolderPath) (EExistsSync tempFolderPath);
     (if negb found then
        fs_perform (fun h f => mkdirSync srt h f tempFolderPath) (EMkdirSync tempFolderPath)
      else mret tt);;
     browser ← engine (perform (launch rt) ELaunch);
     page ← engine (perform (fun h => newPage rt h browser) (ENewPage browser));
     engine (perform (fun h => evaluate rt h page props) (EEvaluate page props));;
     html ← engine (get_field this data);
     engine (perform (fun h => setContent rt h page html) (ESetContent page html));;
     now ← fs_ask (Date_now srt) EDateNow;
     suffix ← fs_ask (random_10000 srt) ERandom;
     let tempPdfPath := path_join srt tempFolderPath (randomFileName now suffix) in
     pdfOptions ← engine (get_field this pdfOptions);
     let options := object_spread {[ "path" := VStr tempPdfPath ]} (Some pdfOptions) in
     engine (perform (fun h => pdf rt h page options) (EPdf page options));;
     readStream ← fs_perform (fun h f => createReadStream srt h f tempPdfPath)
                    (ECreateReadStream tempPdfPath);
     on_close readStream tempPdfPath;;
     mret readStream)
    (fun error =>
       engine (console_error (message_or_self error));;
       stream_throw (new_Error ("Generate PDF Error: " +:+ template (message_or_self error)))).

(** The listener registered by [generatePdfStream], run: the promise
    [fs.promises.unlink] returns is dropped, whatever its outcome. *)
Definition unlink_listener (path : string) : SM unit := fun sw =>
  let '(_, sw') := fs_perform (fun h f => unlink srt h f path) (EUnlink path) sw in
  (Return tt, sw').

End StreamMethods.

(** *** The paths through [generatePdfStream]

    One constructor per place where the body can stop: the call that
    threw, or the [return].  The indices are what came out (the stream, or
    what was thrown inside the [try]), the calls made to puppeteer, the
    calls made to node, and the listener registered. *)
Section StreamPaths.
Context (srt : StreamRuntime) (params : JsObject) (html : string) (options : PDFOptions).

Definition tempFolderPath : string := path_join srt (dirname srt) "temp".

Definition tempPdfPath (now suffix : N) : string :=
  path_join srt tempFolderPath (randomFileName now suffix).

Definition stream_options (now suffix : N) : PDFOptions :=
  object_spread {[ "path" := VStr (tempPdfPath now suffix) ]} (Some options).

(** The folder was found, or it was made. *)
Inductive FolderReady : list FsEvent -> Prop :=
| folder_found : FolderReady [EExistsSync tempFolderPath true]
| folder_made :
    FolderReady [EExistsSync tempFolderPath false; EMkdirSync tempFolderPath (Return tt)].

Inductive StreamPath :
  Outcome handle -> list Event -> list FsEvent -> list (handle * string) -> Prop :=
| path_mkdir_throws (cause : JsThrown) :
    StreamPath (Throw cause) []
      [EExistsSync tempFolderPath false; EMkdirSync tempFolderPath (Throw cause)] []
| path_launch_throws (made : list FsEvent) (cause : JsThrown) :
    FolderReady made ->
    StreamPath (Throw cause) [ELaunch (Throw cause)] made []
| path_newPage_throws (made : list FsEvent) (browser : handle) (cause : JsThrown) :
    FolderReady made ->
    StreamPath (Throw cause)
      [ELaunch (Return browser); ENewPage browser (Throw cause)] made []
| path_evaluate_throws (made : list FsEvent) (browser page : handle) (cause : JsThrown) :
    FolderReady made ->
    StreamPath (Throw cause)
      [ELaunch (Return browser); ENewPage browser (Return page);
       EEvaluate page params (Throw cause)] made []
| path_setContent_throws (made : list FsEvent) (browser page : handle) (cause : JsThrown) :
    FolderReady made ->
    StreamPath (Throw cause)
      [ELaunch (Return browser); ENewPage browser (Return page);
       EEvaluate page params (Return tt); ESetContent page html (Throw cause)] made []
| path_pdf_throws (made : list FsEvent) (browser page : handle) (now suffix : N)
    (cause : JsThrown) :
    FolderReady made ->
    StreamPath (Throw cause)
      [ELaunch (Return browser); ENewPage browser (Return page);
       EEvaluate page params (Return tt); ESetContent page html (Return tt);
       EPdf page (stream_options now suffix) (Throw cause)]
      (made ++ [EDateNow now; ERandom suffix]) []
| path_createReadStream_throws (made : list FsEvent) (browser page : handle)
    (now suffix : N) (pdfBuffer : Buffer) (cause : JsThrown) :
    FolderReady made ->
    StreamPath (Throw cause)
      [ELaunch (Return browser); ENewPage browser (Return page);
       EEvaluate page params (Return tt); ESetContent page html (Return tt);
       EPdf page (stream_options now suffix) (Return pdfBuffer)]
      (made ++ [EDateNow now; ERandom suffix;
                ECreateReadStream (tempPdfPath now suffix) (Throw cause)]) []
| path_returns (made : list FsEvent) (browser page : handle) (now suffix : N)
    (pdfBuffer : Buffer) (readStream : handle) :
    FolderReady made ->
    StreamPath (Return readStream)
      [ELaunch (Return browser); ENewPage browser (Return page);
       EEvaluate page params (Return tt); ESetContent page html (Return tt);
       EPdf page (stream_options now suffix) (Return pdfBuffer)]
      (made ++ [EDateNow now; ERandom suffix;
                ECreateReadStream (tempPdfPath now suffix) (Return readStream)])
      [(readStream, tempPdfPath now suffix)].

End StreamPaths.

(** Where a path leaves the caller: the [catch] wraps and logs what was
    thrown; the fields are untouched. *)
Definition stream_end (sw : StreamWorld) (raw : Outcome handle) (evs : list Event)
    (fevs : list FsEvent) (ls : list (handle * string)) : Outcome handle * StreamWorld :=
  (match raw with
   | Return readStream => Return readStream
   | Throw cause =>
       Throw (new_Error ("Generate PDF Error: " +:+ template (message_or_self cause)))
   end,
   {| world :=
        {| heap := heap (world sw); next_ref := next_ref (world sw);
           console := match raw with
                      | Return _ => console (world sw)
                      | Throw cause => console (world sw) ++ [message_or_self cause]
                      end;
           trace := match evs with
                    | [] => trace (world sw)
                    | _ => trace (world sw) ++ evs
                    end |};
      fs_trace := fs_trace sw ++ fevs;
      close_listeners := match ls with
                         | [] => close_listeners sw
                         | _ => close_listeners sw ++ ls
                         end |}).

(** The decimal digits, and the strings made of them. *)
Definition is_digit (a : Ascii.ascii) : bool :=
  (48 <=? Ascii.nat_of_ascii a) && (Ascii.nat_of_ascii a <=? 57).

Fixpoint all_digits (s : string) : bool :=
  match s with
  | EmptyString => true
  | String a s' => is_digit a && all_digits s'
  end.

(** The calls to node a run added to its trace. *)
Definition new_fs_events (sw sw' : StreamWorld) : list FsEvent :=
  drop (length (fs_trace sw)) (fs_trace sw').


(** A lenient muhammara: as [Scenario.pages], except that a reader opened
    on [undefined] is a reader on the document without pages. *)
Module Lenient.

Definition hummus : Hummus :=
  {| Reader := list Byte.byte;
     Writer := list Byte.byte;
     PDFRStreamForBuffer := fun b => Return (default [] b);
     createWriterToModify := fun r => Return r;
     appendPDFPagesFromPDF := fun w r => Return (w ++ r);
     pdfWriter_end := fun w => Return w |}.

Definition model : PdfModel hummus :=
  Build_PdfModel hummus Byte.byte (fun b => Some b) (fun w => w).

End Lenient.

(** A stricter muhammara: a buffer holds a document when it starts with
    the byte [%]; the pages follow, one byte per page. *)
Module Headed.

Definition read (b : option Buffer) : Outcome (list Byte.byte) :=
  match b with
  | Some (Byte.x25 :: ps) => Return ps
  | _ => Throw (new_Error "Unable to read PDF file")
  end.

Definition hummus : Hummus :=
  {| Reader := list Byte.byte;
     Writer := list Byte.byte;
     PDFRStreamForBuffer := read;
     createWriterToModify := fun r => Return r;
     appendPDFPagesFromPDF := fun w r => Return (w ++ r);
     pdfWriter_end := fun w => Return (Byte.x25 :: w) |}.

Definition model : PdfModel hummus :=
  Build_PdfModel hummus Byte.byte
    (fun b => match b with Byte.x25 :: ps => Some ps | _ => None end)
    (fun w => w).

End Headed.

(** A disk, a clock and a source of random numbers to run
    [generatePdfStream] on: the folder exists once it was made. *)
Module StreamScenario.

Definition made (f : list FsEvent) (path : string) : bool :=
  existsb (fun ev => match ev with
                     | EMkdirSync p (Return _) => bool_decide (p = path)
                     | _ => false
                     end) f.

Definition node : StreamRuntime :=
  {| dirname := "/srv/app/dist";
     path_join := fun a b => a +:+ "/" +:+ b;
     existsSync := fun _ f path => made f path;
     mkdirSync := fun _ _ _ => Return tt;
     Date_now := fun _ f => (1700000000000 + N.of_nat (length f))%N;
     random_10000 := fun _ _ => 4242%N;
     createReadStream := fun _ f _ => Return (length f);
     unlink := fun _ _ _ => Return tt |}.

(** The same, on a disk where no folder can be made. *)
Definition read_only : StreamRuntime :=
  {| dirname := dirname node;
     path_join := path_join node;
     existsSync := existsSync node;
     mkdirSync := fun _ _ path =>
       Throw (new_Error ("EROFS: read-only file system, mkdir '" +:+ path +:+ "'"));
     Date_now := Date_now node;
     random_10000 := random_10000 node;
     createReadStream := createReadStream node;
     unlink := unlink node |}.

(** The same, where no stream can be opened. *)
Definition no_stream : StreamRuntime :=
  {| dirname := dirname node;
     path_join := path_join node;
     existsSync := existsSync node;
     mkdirSync := mkdirSync node;
     Date_now := Date_now node;
     random_10000 := random_10000 node;
     createReadStream := fun _ _ _ =>
       Throw (ErrorObj "TypeError" "The argument 'path' must be a string");
     unlink := unlink node |}.

Definition sw0 : StreamWorld :=
  {| world := (fromContent 0 "<h1>Test HTML Content</h1>" Scenario.w0).2;
     fs_trace := []; close_listeners := [] |}.

End StreamScenario.

(** ** Tactics *)

Ltac run_monad :=
  unfold try_catch, mbind, M_bind, mret, M_ret, perform, get_field, set_this,
    console_error, throw, lift; simpl.

Ltac case_oracle :=
  match goal with
  | |- context [match ?o with Return _ => _ | Throw _ => _ end] =>
      let H := fresh "Hcall" in destruct o eqn:H; simpl
  end.

Ltac normalise_trace :=
  rewrite <- ?app_assoc; simpl.

(** ** Strings *)

Lemma append_empty_r (s : string) : s +:+ EmptyString = s.
Proof.
  induction s as [|a s IH]; [reflexivity|].
  change (String a (s +:+ EmptyString) = String a s). now rewrite IH.
Qed.

Lemma contains_at_start (s post : string) : contains (s +:+ post) s.
Proof. now exists EmptyString, post. Qed.

Lemma contains_at_end (pre s : string) : contains (pre +:+ s) s.
Proof. exists pre, EmptyString. now rewrite append_empty_r. Qed.

Lemma append_assoc (a b c : string) : (a +:+ b) +:+ c = a +:+ b +:+ c.
Proof.
  induction a as [|x a IH]; [reflexivity|].
  change (String x ((a +:+ b) +:+ c) = String x (a +:+ b +:+ c)). now rewrite IH.
Qed.

Lemma contains_append_l (pre msg s : string) : contains msg s -> contains (pre +:+ msg) s.
Proof.
  intros (a & b & ->). exists (pre +:+ a), b. now rewrite append_assoc.
Qed.

(** ** The object store *)

Lemma store_same (h : ref -> PDFGenerator) (l : ref) (g : PDFGenerator) :
  <[l := g]> h l = g.
Proof. apply fn_lookup_insert. Qed.

Lemma store_other (h : ref -> PDFGenerator) (l l' : ref) (g : PDFGenerator) :
  l <> l' -> <[l := g]> h l' = h l'.
Proof. apply fn_lookup_insert_ne. Qed.

(** ** The constructor and the two setters *)

(** C8. A generator made by [new PDFGenerator()] has the empty string as
    [data] and [{ format: "A4" }] as [pdfOptions]; [fromContent] replaces
    [data] and nothing else, [setPdfOptions] replaces [pdfOptions] by its
    argument as a whole and nothing else, and both return the very
    reference they were called on. *)
Theorem fresh_generator_and_setters (w : World) (this : ref) (html : string)
    (options : PDFOptions) :
  (exists g,
      (new_PDFGenerator None w).1 = Return g
      /\ data (heap (new_PDFGenerator None w).2 g) = EmptyString
      /\ pdfOptions (heap (new_PDFGenerator None w).2 g) = {[ "format" := VStr "A4" ]}
      /\ forall other, other <> g -> heap (new_PDFGenerator None w).2 other = heap w other)
  /\ ((fromContent this html w).1 = Return this
      /\ heap (fromContent this html w).2 this
         = {| data := html; pdfOptions := pdfOptions (heap w this) |})
  /\ ((setPdfOptions this options w).1 = Return this
      /\ heap (setPdfOptions this options w).2 this
         = {| data := data (heap w this); pdfOptions := options |}).
Proof.
  split; [|split].
  - exists (next_ref w). simpl. rewrite store_same. repeat split.
    intros other Hne. now rewrite store_other.
  - simpl. rewrite store_same. auto.
  - simpl. rewrite store_same. auto.
Qed.

(** The setters leave every other instance alone. *)
Lemma setters_frame (w : World) (this other : ref) (html : string) (options : PDFOptions) :
  this <> other ->
  heap (fromContent this html w).2 other = heap w other
  /\ heap (setPdfOptions this options w).2 other = heap w other.
Proof.
  intros Hne. simpl. now rewrite !store_other.
Qed.

(** ** File intake *)

Section FromFile.
Context (rt : Runtime).

Lemma fromFile_read_ok (this : ref) (filePath fileContent : string) (w : World) :
  readFile rt (trace w) filePath = Return fileContent ->
  fromFile rt this filePath w
  = (Return this,
     {| heap := <[this := {| data := fileContent; pdfOptions := pdfOptions (heap w this) |}]> (heap w);
        next_ref := next_ref w; console := console w;
        trace := trace w ++ [EReadFile filePath (Return fileContent)] |}).
Proof.
  intros H. unfold fromFile, try_catch, perform, mbind, M_bind. cbn. now rewrite H.
Qed.

Lemma fromFile_read_fails (this : ref) (filePath : string) (e : JsThrown) (w : World) :
  readFile rt (trace w) filePath = Throw e ->
  fromFile rt this filePath w
  = (Throw (new_Error ("Error reading file at path: " +:+ dquote +:+ filePath
                       +:+ dquote +:+ newline +:+ toString e)),
     {| heap := heap w; next_ref := next_ref w;
        console := console w ++ [message_or_self e];
        trace := trace w ++ [EReadFile filePath (Throw e)] |}).
Proof.
  intros H. unfold fromFile, try_catch, perform, mbind, M_bind. cbn. now rewrite H.
Qed.

End FromFile.

(** C4. When reading [filePath] fails with [e], [fromFile] throws an
    [Error] whose message contains [filePath] itself and the text of the
    failure [e] it wraps. *)
Theorem fromFile_error_names_path (rt : Runtime) (this : ref) (filePath : string)
    (e : JsThrown) (w : World) :
  readFile rt (trace w) filePath = Throw e ->
  exists msg,
    (fromFile rt this filePath w).1 = Throw (new_Error msg)
    /\ contains msg filePath
    /\ contains msg (toString e).
Proof.
  intros H. rewrite (fromFile_read_fails rt this filePath e w H). cbn [fst].
  eexists. split; [reflexivity|]. split.
  - apply contains_append_l, contains_append_l, contains_at_start.
  - do 4 apply contains_append_l. apply contains_at_end.
Qed.

Lemma fromFile_error_names_path_witness :
  exists msg,
    (fromFile Scenario.healthy 0 "/nonexistent/path.html" Scenario.w0).1
    = Throw (new_Error msg)
    /\ contains msg "/nonexistent/path.html"
    /\ contains msg (toString (Scenario.enoent "/nonexistent/path.html")).
Proof.
  apply (fromFile_error_names_path Scenario.healthy 0 "/nonexistent/path.html"
           (Scenario.enoent "/nonexistent/path.html") Scenario.w0).
  reflexivity.
Defined.

(** C10. When reading [filePath] fails, [fromFile] throws and the fields
    of the generator (indeed of every generator) are what they were. *)
Theorem fromFile_failure_keeps_fields (rt : Runtime) (this : ref) (filePath : string)
    (e : JsThrown) (w : World) :
  readFile rt (trace w) filePath = Throw e ->
  is_Return (fromFile rt this filePath w).1 = false
  /\ data (heap (fromFile rt this filePath w).2 this) = data (heap w this)
  /\ pdfOptions (heap (fromFile rt this filePath w).2 this) = pdfOptions (heap w this)
  /\ heap (fromFile rt this filePath w).2 = heap w.
Proof.
  intros H. rewrite (fromFile_read_fails rt this filePath e w H). cbn. auto.
Qed.

Lemma fromFile_failure_keeps_fields_witness :
  let w := (fromContent 0 "<h1>Hello, World!</h1>" Scenario.w0).2 in
  is_Return (fromFile Scenario.healthy 0 "/nonexistent/path.html" w).1 = false
  /\ data (heap (fromFile Scenario.healthy 0 "/nonexistent/path.html" w).2 0)
     = "<h1>Hello, World!</h1>"
  /\ pdfOptions (heap (fromFile Scenario.healthy 0 "/nonexistent/path.html" w).2 0)
     = {[ "format" := VStr "A4" ]}.
Proof.
  destruct (fromFile_failure_keeps_fields Scenario.healthy 0 "/nonexistent/path.html"
              (Scenario.enoent "/nonexistent/path.html")
              (fromContent 0 "<h1>Hello, World!</h1>" Scenario.w0).2 eq_refl)
    as (Hthrow & Hdata & Hopts & _).
  split; [exact Hthrow|]. split; [exact Hdata | exact Hopts].
Defined.

(** ** Composition *)

Section MergePDFs.
Context (hm : Hummus).

(** [mergePDFs] unfolded on a list with a first element. *)
Lemma mergePDFs_cons (first : Buffer) (rest : list Buffer) :
  mergePDFs hm (first :: rest)
  = match PDFRStreamForBuffer hm (Some first) with
    | Throw e => (Throw e, first :: rest)
    | Return r =>
        match createWriterToModify hm r with
        | Throw e => (Throw e, first :: rest)
        | Return pdfWriter =>
            (forEach_append hm pdfWriter rest ≫= pdfWriter_end hm, rest)
        end
    end.
Proof. reflexivity. Qed.

(** Whatever happens, the caller's array ends as itself or as its tail. *)
Lemma mergePDFs_array (buffers : list Buffer) :
  (mergePDFs hm buffers).2 = buffers \/ (mergePDFs hm buffers).2 = tail buffers.
Proof.
  unfold mergePDFs.
  destruct (PDFRStreamForBuffer hm (head buffers)) as [r|e]; [|now left].
  destruct (createWriterToModify hm r) as [pdfWriter|e]; [now right | now left].
Qed.

Lemma mergePDFs_returns_shifted (buffers : list Buffer) (out : Buffer) :
  (mergePDFs hm buffers).1 = Return out -> (mergePDFs hm buffers).2 = tail buffers.
Proof.
  unfold mergePDFs.
  destruct (PDFRStreamForBuffer hm (head buffers)) as [r|e]; [|discriminate].
  destruct (createWriterToModify hm r) as [pdfWriter|e]; [reflexivity | discriminate].
Qed.

(** An [undefined] base document that muhammara refuses makes the call
    throw, the (empty) array untouched. *)
Lemma mergePDFs_undefined_base :
  rejects_undefined hm -> exists e, mergePDFs hm [] = (Throw e, []).
Proof.
  unfold rejects_undefined, mergePDFs. simpl.
  destruct (PDFRStreamForBuffer hm None) as [r|e]; [|now exists e].
  destruct (createWriterToModify hm r) as [pdfWriter|e]; [discriminate | now exists e].
Qed.

Section WithLaws.
Context (md : PdfModel hm) (laws : HummusLaws hm md).

Lemma forEach_append_pages (buffers : list Buffer) (docs : list (list (Page md))) :
  Forall2 (fun b d => pages_of md b = Some d) buffers docs ->
  forall pdfWriter,
  exists pdfWriter',
    forEach_append hm pdfWriter buffers = Return pdfWriter'
    /\ writer_pages md pdfWriter' = writer_pages md pdfWriter ++ concat docs.
Proof.
  induction 1 as [|b d bs ds Hb _ IH]; intros pdfWriter.
  - exists pdfWriter. split; [reflexivity|]. simpl. now rewrite app_nil_r.
  - pose proof (law_open hm md laws b d Hb) as Hopen.
    destruct (PDFRStreamForBuffer hm (Some b)) as [r|e] eqn:Hr; [|discriminate].
    destruct (law_append hm md laws b d r pdfWriter Hb Hr) as (w1 & Happ & Hw1).
    destruct (IH w1) as (w2 & Hrest & Hw2).
    exists w2. split.
    + simpl. rewrite Hr. simpl. rewrite Happ. simpl. exact Hrest.
    + rewrite Hw2, Hw1. simpl. now rewrite app_assoc.
Qed.

Lemma mergePDFs_pages (first : Buffer) (rest : list Buffer)
    (d : list (Page md)) (ds : list (list (Page md))) :
  pages_of md first = Some d ->
  Forall2 (fun b d => pages_of md b = Some d) rest ds ->
  exists out,
    mergePDFs hm (first :: rest) = (Return out, rest)
    /\ pages_of md out = Some (d ++ concat ds).
Proof.
  intros Hd Hds. rewrite mergePDFs_cons.
  pose proof (law_open hm md laws first d Hd) as Hopen.
  destruct (PDFRStreamForBuffer hm (Some first)) as [r|e] eqn:Hr; [|discriminate].
  destruct (law_modify hm md laws first d r Hd Hr) as (w0 & -> & Hw0).
  destruct (forEach_append_pages rest ds Hds w0) as (w1 & -> & Hw1).
  destruct (law_end hm md laws w1) as (out & Hout & Hpages).
  exists out. split.
  - simpl. now rewrite Hout.
  - now rewrite Hpages, Hw1, Hw0.
Qed.

End WithLaws.
End MergePDFs.

Lemma length_concat_sum {A} (ls : list (list A)) :
  length (concat ls) = sum_list (length <$> ls).
Proof.
  induction ls as [|l ls IH]; [reflexivity|].
  simpl. rewrite length_app, IH. reflexivity.
Qed.




(** On a muhammara that refuses [undefined], the same call throws what
    muhammara threw. *)
Example mergePDFs_empty_throws_on_a_strict_library :
  mergePDFs Scenario.pages []
  = (Throw (ErrorObj "TypeError"
              "Cannot read properties of undefined (reading 'byteLength')"), []).
Proof. reflexivity. Qed.

(** C5. Given buffers that all hold a document, the first one with pages
    [d] and the others with pages [ds], [mergePDFs] returns a buffer
    holding the pages of the first document followed by those of the
    others, in the order of the list and each in its own order; their
    number is the sum of the page counts. *)
Theorem mergePDFs_page_sequence (hm : Hummus) (md : PdfModel hm)
    (buffers : list Buffer) (docs : list (list (Page md))) :
  HummusLaws hm md ->
  buffers <> [] ->
  Forall2 (fun b d => pages_of md b = Some d) buffers docs ->
  exists out,
    (mergePDFs hm buffers).1 = Return out
    /\ pages_of md out = Some (concat docs)
    /\ length (concat docs) = sum_list (length <$> docs).
Proof.
  intros laws Hne Hdocs.
  destruct Hdocs as [|first d rest ds Hd Hds]; [congruence|].
  destruct (mergePDFs_pages hm md laws first rest d ds Hd Hds) as (out & Hrun & Hpages).
  exists out. rewrite Hrun. split; [reflexivity|]. split; [exact Hpages|].
  apply length_concat_sum.
Qed.

Lemma Scenario_pages_laws : HummusLaws Scenario.pages Scenario.pages_model.
Proof.
  split.
  - intros b d _. reflexivity.
  - intros b d r Hd Hr. exists r. simpl in *. split; [reflexivity|]. congruence.
  - intros b d r w Hd Hr. exists (w ++ r). simpl in *. split; [reflexivity|]. congruence.
  - intros w. exists w. split; reflexivity.
Qed.

Lemma mergePDFs_page_sequence_witness :
  exists out,
    (mergePDFs Scenario.pages [[Byte.x01; Byte.x02]; [Byte.x03]; [Byte.x04; Byte.x05]]).1
    = Return out
    /\ pages_of Scenario.pages_model out
       = Some (concat [[Byte.x01; Byte.x02]; [Byte.x03]; [Byte.x04; Byte.x05]])
    /\ length (concat [[Byte.x01; Byte.x02]; [Byte.x03]; [Byte.x04; Byte.x05]])
       = sum_list (length <$> [[Byte.x01; Byte.x02]; [Byte.x03]; [Byte.x04; Byte.x05]]).
Proof.
  apply (mergePDFs_page_sequence Scenario.pages Scenario.pages_model
           [[Byte.x01; Byte.x02]; [Byte.x03]; [Byte.x04; Byte.x05]]
           [[Byte.x01; Byte.x02]; [Byte.x03]; [Byte.x04; Byte.x05]]).
  - exact Scenario_pages_laws.
  - discriminate.
  - repeat constructor.
Defined.

(** C9. When [mergePDFs(buffers)] returns, the caller's array holds the
    tail of what it held: a non-empty array has lost its first element
    and is one shorter; and an array that muhammara accepted was not
    empty, as muhammara refuses an [undefined] base document. *)
Theorem mergePDFs_shifts_the_callers_array (hm : Hummus) (buffers : list Buffer)
    (out : Buffer) :
  (mergePDFs hm buffers).1 = Return out ->
  (mergePDFs hm buffers).2 = tail buffers
  /\ (buffers <> [] -> S (length (mergePDFs hm buffers).2) = length buffers)
  /\ (rejects_undefined hm -> buffers <> []).
Proof.
  intros Hret. pose proof (mergePDFs_returns_shifted hm buffers out Hret) as Hshift.
  split; [exact Hshift|]. split.
  - rewrite Hshift. destruct buffers; [congruence | reflexivity].
  - intros Hrej ->. destruct (mergePDFs_undefined_base hm Hrej) as (e & He).
    rewrite He in Hret. discriminate.
Qed.

Lemma mergePDFs_shifts_the_callers_array_witness :
  (mergePDFs Scenario.pages [[Byte.x01]; [Byte.x02]]).2 = [[Byte.x02]]
  /\ S (length (mergePDFs Scenario.pages [[Byte.x01]; [Byte.x02]]).2) = 2.
Proof.
  destruct (mergePDFs_shifts_the_callers_array Scenario.pages
              [[Byte.x01]; [Byte.x02]] [Byte.x01; Byte.x02] eq_refl) as (Htail & Hlen & _).
  split; [exact Htail | apply Hlen; discriminate].
Defined.

(** ** Rendering one document *)

Lemma new_events_app (w w' : World) (evs : list Event) :
  trace w' = trace w ++ evs -> new_events w w' = evs.
Proof. intros H. unfold new_events. rewrite H. apply drop_app_length. Qed.

Lemma evaluated_app (l k : list Event) : evaluated (l ++ k) = evaluated l ++ evaluated k.
Proof. apply omap_app. Qed.

Lemma loaded_app (l k : list Event) : loaded (l ++ k) = loaded l ++ loaded k.
Proof. apply omap_app. Qed.

Section GeneratePdf.
Context (rt : Runtime).

(** What one call of [generatePdf] does: the fields stay; the trace
    grows by at most one [evaluate] and one [setContent], exactly one of
    each when the call returns; a failure surfaces as a new [Error]. *)
Lemma generatePdf_run (this : ref) (props : option JsObject) (w : World) :
  exists evs,
    trace (generatePdf rt this props w).2 = trace w ++ evs
    /\ heap (generatePdf rt this props w).2 = heap w
    /\ (evaluated evs = [] \/ evaluated evs = [default {[ "pageNumber" := VNum 1 ]} props])
    /\ (loaded evs = [] \/ loaded evs = [data (heap w this)])
    /\ match (generatePdf rt this props w).1 with
       | Return _ =>
           evaluated evs = [default {[ "pageNumber" := VNum 1 ]} props]
           /\ loaded evs = [data (heap w this)]
           /\ open_sessions evs = []
       | Throw e => exists msg, e = new_Error ("Generate PDF Error: " +:+ msg)
       end.
Proof.
  unfold generatePdf. run_monad.
  repeat case_oracle; normalise_trace;
    (eexists; split; [reflexivity|]); simpl;
    repeat split; eauto.
  unfold open_sessions. simpl.
  destruct (decide_rel elem_of _ _) as [|Hn]; [reflexivity|].
  exfalso. apply Hn. apply list_elem_of_here.
Qed.

(** The success path: six calls, the last one closing the browser. *)
Lemma generatePdf_returns (this : ref) (props : option JsObject) (w : World)
    (pdfBuffer : Buffer) :
  (generatePdf rt this props w).1 = Return pdfBuffer ->
  exists browser page,
    new_events w (generatePdf rt this props w).2
    = [ ELaunch (Return browser);
        ENewPage browser (Return page);
        EEvaluate page (default {[ "pageNumber" := VNum 1 ]} props) (Return tt);
        ESetContent page (data (heap w this)) (Return tt);
        EPdf page (pdfOptions (heap w this)) (Return pdfBuffer);
        EClose browser (Return tt) ].
Proof.
  unfold generatePdf. run_monad.
  repeat case_oracle; intros Hret; try discriminate.
  injection Hret as <-.
  repeat match goal with u : unit |- _ => destruct u end.
  do 2 eexists. apply new_events_app. simpl. normalise_trace. reflexivity.
Qed.

(** X4. The failure paths after the launch: unless it is [browser.close()]
    itself that throws, a call that throws has launched a browser and
    never called [close] on it, so that this session stays open. *)
Lemma generatePdf_throws_unreleased (this : ref) (props : option JsObject) (w : World)
    (browser : handle) (e : JsThrown) :
  launch rt (trace w) = Return browser ->
  (generatePdf rt this props w).1 = Throw e ->
  launched (new_events w (generatePdf rt this props w).2) = [browser]
  /\ (open_sessions (new_events w (generatePdf rt this props w).2) = [browser]
      \/ exists e', EClose browser (Throw e') ∈ new_events w (generatePdf rt this props w).2).
Proof.
  intros Hlaunch. unfold generatePdf. run_monad. rewrite Hlaunch. simpl.
  repeat case_oracle; intros Hthrow; try discriminate;
    (erewrite new_events_app by (simpl; normalise_trace; reflexivity));
    (split; [reflexivity|]);
    try (left; reflexivity).
  right. eexists. repeat constructor.
Qed.

End GeneratePdf.

(** C1. A run where the session is not released: the browser launches,
    the page loads, [page.pdf] throws.  [generatePdf] rethrows, and
    [browser.close()] was never called: the session stays open. *)
Theorem generatePdf_leaves_the_session_open_when_printing_fails :
  let w := (fromContent 0 "<h1>Hello, World!</h1>" Scenario.w0).2 in
  let run := generatePdf Scenario.printer_down 0 None w in
  run.1 = Throw (new_Error
            "Generate PDF Error: Protocol error (Page.printToPDF): Printing failed")
  /\ launched (trace run.2) = [0]
  /\ closed (trace run.2) = []
  /\ open_sessions (trace run.2) = [0].
Proof. vm_compute. repeat split. Qed.

(** ** Rendering several pages *)

Lemma object_spread_lookup (target : JsObject) (source : option JsObject) (k : string) :
  object_spread target source !! k
  = match source ≫= (fun o => o !! k) with
    | Some v => Some v
    | None => target !! k
    end.
Proof.
  destruct source as [src|]; simpl; [|reflexivity].
  rewrite lookup_union. destruct (src !! k), (target !! k); reflexivity.
Qed.

Lemma page_params_pageNumber (i : nat) (page : IPageRenderData.t) :
  page_params i page !! "pageNumber"
  = Some (match IPageRenderData.props page ≫= (fun o => o !! "pageNumber") with
          | Some v => v
          | None => VNum (Z.of_nat i)
          end).
Proof.
  unfold page_params. rewrite object_spread_lookup.
  destruct (IPageRenderData.props page ≫= _); [reflexivity|].
  apply lookup_singleton_eq.
Qed.

Lemma page_params_other (i : nat) (page : IPageRenderData.t) (k : string) :
  k <> "pageNumber" ->
  page_params i page !! k = IPageRenderData.props page ≫= (fun o => o !! k).
Proof.
  intros Hk. unfold page_params. rewrite object_spread_lookup.
  destruct (IPageRenderData.props page ≫= _); [reflexivity|].
  now rewrite lookup_singleton_ne.
Qed.

Section MultiPage.
Context (rt : Runtime) (hm : Hummus).

(** The loop body, statement by statement. *)
Lemma page_step_unfold (this : ref) (i : nat) (page : IPageRenderData.t) (w : World) :
  page_step rt this i page w
  = match page_intake rt this page w with
    | (Return _, w1) =>
        generatePdf rt this (Some (page_params i page))
          (setPdfOptions this (default ∅ (IPageRenderData.pdfOptions page)) w1).2
    | (Throw e, w1) => (Throw e, w1)
    end.
Proof.
  unfold page_step, page_intake. run_monad.
  destruct (truthy_opt (IPageRenderData.templatePath page)).
  - destruct (fromFile rt this _ w) as [[r|e] w1]; reflexivity.
  - destruct (truthy_opt (IPageRenderData.content page)); reflexivity.
Qed.

(** The intake reads at most one file, and fails only when that read
    fails. *)
Lemma page_intake_run (this : ref) (page : IPageRenderData.t) (w : World) :
  exists evs,
    trace (page_intake rt this page w).2 = trace w ++ evs
    /\ evaluated evs = [] /\ loaded evs = []
    /\ match (page_intake rt this page w).1 with
       | Return _ => True
       | Throw e => exists rest, e = new_Error ("Error reading file at path: " +:+ rest)
       end.
Proof.
  unfold page_intake.
  destruct (truthy_opt (IPageRenderData.templatePath page)).
  - set (p := default EmptyString (IPageRenderData.templatePath page)).
    unfold mbind, M_bind.
    destruct (readFile rt (trace w) p) as [c|e] eqn:Hread.
    + rewrite (fromFile_read_ok rt this p c w Hread). simpl.
      eexists. split; [reflexivity|]. auto.
    + rewrite (fromFile_read_fails rt this p e w Hread). simpl.
      eexists. split; [reflexivity|]. repeat split. eexists. reflexivity.
  - exists []. rewrite app_nil_r.
    destruct (truthy_opt (IPageRenderData.content page)); simpl; auto.
Qed.

Lemma page_step_run (this : ref) (i : nat) (page : IPageRenderData.t) (w : World) :
  exists evs,
    trace (page_step rt this i page w).2 = trace w ++ evs
    /\ match (page_step rt this i page w).1 with
       | Return _ => evaluated evs = [page_params i page]
       | Throw e =>
           (evaluated evs = [] \/ evaluated evs = [page_params i page])
           /\ exists msg, e = new_Error msg
               /\ ((exists rest, msg = "Error reading file at path: " +:+ rest)
                   \/ (exists rest, msg = "Generate PDF Error: " +:+ rest))
       end.
Proof.
  rewrite page_step_unfold.
  destruct (page_intake_run this page w) as (evs1 & Htr1 & Hev1 & _ & Hres1).
  destruct (page_intake rt this page w) as [[u|e] w1]; simpl in Htr1, Hres1.
  - set (w2 := (setPdfOptions this _ w1).2).
    destruct (generatePdf_run rt this (Some (page_params i page)) w2)
      as (evs2 & Htr2 & _ & Hev2 & _ & Hres2).
    exists (evs1 ++ evs2). split.
    + rewrite Htr2. subst w2. simpl. rewrite Htr1. now rewrite app_assoc.
    + rewrite evaluated_app, Hev1. simpl in *.
      destruct (generatePdf rt this _ w2).1 as [buf|e].
      * apply Hres2.
      * split; [exact Hev2|]. destruct Hres2 as (msg & ->).
        eexists. split; [reflexivity|]. right. eexists. reflexivity.
  - exists evs1. split; [exact Htr1|]. simpl. split; [now left|].
    destruct Hres1 as (rest & ->). eexists. split; [reflexivity|].
    left. eexists. reflexivity.
Qed.

(** The loop: the [j]-th call of [page.evaluate] belongs to the [j]-th
    page and carries its parameter object; when the loop completes,
    every page was evaluated and has pushed one buffer. *)
Lemma for_pages_run (this : ref) (pageData : list IPageRenderData.t) :
  forall (i : nat) (buffers : list Buffer) (w : World),
  exists evs,
    trace (for_pages rt this i pageData buffers w).2 = trace w ++ evs
    /\ (forall j params,
          evaluated evs !! j = Some params ->
          exists page, pageData !! j = Some page /\ params = page_params (S (i + j)) page)
    /\ (forall out,
          (for_pages rt this i pageData buffers w).1 = Return out ->
          length (evaluated evs) = length pageData
          /\ length out = length buffers + length pageData).
Proof.
  induction pageData as [|page rest IH]; intros i buffers w.
  - exists []. simpl. rewrite app_nil_r. split; [reflexivity|]. split.
    + intros j params Hj. now rewrite lookup_nil in Hj.
    + intros out [= <-]. split; [reflexivity | lia].
  - simpl. unfold mbind, M_bind.
    destruct (page_step_run this (S i) page w) as (evs1 & Htr1 & Hres1).
    destruct (page_step rt this (S i) page w) as [[file|e] w1]; simpl in Htr1, Hres1.
    + destruct (IH (S i) (buffers ++ [file]) w1) as (evs2 & Htr2 & Hev2 & Hret2).
      exists (evs1 ++ evs2). split; [|split].
      * rewrite Htr2, Htr1. now rewrite app_assoc.
      * rewrite evaluated_app, Hres1. intros [|j] params Hj; simpl in Hj.
        -- injection Hj as <-. exists page. split; [reflexivity|]. now rewrite Nat.add_0_r.
        -- destruct (Hev2 j params Hj) as (pg & Hpg & ->).
           exists pg. split; [exact Hpg|]. f_equal. lia.
      * intros out Hout. destruct (Hret2 out Hout) as (Hlen & Hbufs).
        rewrite evaluated_app, Hres1. simpl. rewrite Hlen. split; [reflexivity|].
        rewrite Hbufs, length_app. simpl. lia.
    + exists evs1. split; [exact Htr1|]. split; [|discriminate].
      destruct Hres1 as ([Hev|Hev] & _); rewrite Hev; intros [|j] params Hj;
        simpl in Hj; try discriminate.
      injection Hj as <-. exists page. split; [reflexivity|]. now rewrite Nat.add_0_r.
Qed.

(** Running the loop on [pre ++ post] is running it on [pre], then on
    [post] from where [pre] stopped. *)
Lemma for_pages_app (this : ref) (pre post : list IPageRenderData.t) :
  forall (i : nat) (buffers : list Buffer) (w : World),
    for_pages rt this i (pre ++ post) buffers w
    = match for_pages rt this i pre buffers w with
      | (Return buffers', w1) => for_pages rt this (i + length pre) post buffers' w1
      | (Throw e, w1) => (Throw e, w1)
      end.
Proof.
  induction pre as [|page pre IH]; intros i buffers w.
  - simpl. now rewrite Nat.add_0_r.
  - simpl. unfold mbind, M_bind.
    destruct (page_step rt this (S i) page w) as [[file|e] w1]; [|reflexivity].
    rewrite IH. now replace (S i + length pre) with (i + S (length pre)) by lia.
Qed.

(** Around the loop, [generateMultiPagePdf] calls no collaborator that
    is traced and writes no field. *)
Lemma generateMultiPagePdf_frame (this : ref) (pageData : list IPageRenderData.t) (w : World) :
  trace (generateMultiPagePdf rt hm this pageData w).2
  = trace (for_pages rt this 0 pageData [] w).2
  /\ heap (generateMultiPagePdf rt hm this pageData w).2
     = heap (for_pages rt this 0 pageData [] w).2.
Proof.
  unfold generateMultiPagePdf. run_monad.
  destruct (for_pages rt this 0 pageData [] w) as [[buffers|e] w1]; simpl; [|auto].
  destruct (mergePDFs hm buffers).1; simpl; auto.
Qed.

(** A failure of the loop is rethrown, wrapped. *)
Lemma generateMultiPagePdf_rethrows (this : ref) (pageData : list IPageRenderData.t)
    (w : World) (e : JsThrown) :
  (for_pages rt this 0 pageData [] w).1 = Throw e ->
  (generateMultiPagePdf rt hm this pageData w).1
  = Throw (new_Error ("Generate Multi Page PDF Error: " +:+ template (message_or_self e))).
Proof.
  unfold generateMultiPagePdf. run_monad.
  destruct (for_pages rt this 0 pageData [] w) as [[buffers|e'] w1]; simpl; [discriminate|].
  now intros [= ->].
Qed.

End MultiPage.

(** C2. In a run of [generateMultiPagePdf], the [i]-th render (counting
    from 1; [j = i - 1] below) is that of the [i]-th page and receives
    [{ pageNumber: i, ...page.props }]: its [pageNumber] is [i], unless
    [page.props] has a [pageNumber] of its own, which then wins; every
    other key is as [page.props] has it. *)
Theorem generateMultiPagePdf_page_params (rt : Runtime) (hm : Hummus) (this : ref)
    (pageData : list IPageRenderData.t) (w : World) (j : nat) (params : JsObject) :
  evaluated (new_events w (generateMultiPagePdf rt hm this pageData w).2) !! j = Some params ->
  exists page,
    pageData !! j = Some page
    /\ params = object_spread {[ "pageNumber" := VNum (Z.of_nat (S j)) ]}
                  (IPageRenderData.props page)
    /\ params !! "pageNumber"
       = Some (match IPageRenderData.props page ≫= (fun o => o !! "pageNumber") with
               | Some v => v
               | None => VNum (Z.of_nat (S j))
               end)
    /\ forall k, k <> "pageNumber" ->
         params !! k = IPageRenderData.props page ≫= (fun o => o !! k).
Proof.
  intros Hj.
  destruct (generateMultiPagePdf_frame rt hm this pageData w) as (Htr & _).
  destruct (for_pages_run rt this pageData 0 [] w) as (evs & Hevs & Hparams & _).
  rewrite (new_events_app w _ evs) in Hj by (now rewrite Htr).
  destruct (Hparams j params Hj) as (page & Hpage & ->).
  exists page. split; [exact Hpage|]. split; [reflexivity|]. split.
  - apply page_params_pageNumber.
  - intros k Hk. now apply page_params_other.
Qed.

(** X22. When [generateMultiPagePdf] returns, every page was rendered,
    once and in the order of the list: the parameter objects handed to
    [page.evaluate] are those of the pages, [{ pageNumber: i, ...props }]
    for the [i]-th. *)
Lemma generateMultiPagePdf_renders_all (rt : Runtime) (hm : Hummus) (this : ref)
    (pageData : list IPageRenderData.t) (w : World) (out : Buffer) :
  (generateMultiPagePdf rt hm this pageData w).1 = Return out ->
  evaluated (new_events w (generateMultiPagePdf rt hm this pageData w).2)
  = imap (fun j page => page_params (S j) page) pageData.
Proof.
  intros Hret.
  destruct (generateMultiPagePdf_frame rt hm this pageData w) as (Htr & _).
  destruct (for_pages_run rt this pageData 0 [] w) as (evs & Hevs & Hparams & Hall).
  rewrite (new_events_app w _ evs) by (now rewrite Htr).
  assert (Hlen : length (evaluated evs) = length pageData).
  { revert Hret. unfold generateMultiPagePdf. run_monad.
    destruct (for_pages rt this 0 pageData [] w) as [[buffers|e] w1]; simpl; [|discriminate].
    intros _. now destruct (Hall buffers eq_refl). }
  apply list_eq. intros j. rewrite list_lookup_imap.
  destruct (evaluated evs !! j) as [params|] eqn:Hj.
  - destruct (Hparams j params Hj) as (page & -> & ->). reflexivity.
  - apply lookup_ge_None in Hj. rewrite Hlen in Hj.
    apply lookup_ge_None in Hj. now rewrite Hj.
Qed.

Lemma generateMultiPagePdf_page_params_witness :
  exists page,
    [Booklet.intro; Booklet.cover] !! 1 = Some page
    /\ ({[ "pageNumber" := VStr "ii"; "title" := VStr "Report" ]} : JsObject)
       = object_spread {[ "pageNumber" := VNum 2 ]} (IPageRenderData.props page)
    /\ ({[ "pageNumber" := VStr "ii"; "title" := VStr "Report" ]} : JsObject) !! "pageNumber"
       = Some (match IPageRenderData.props page ≫= (fun o => o !! "pageNumber") with
               | Some v => v
               | None => VNum 2
               end)
    /\ forall k, k <> "pageNumber" ->
         ({[ "pageNumber" := VStr "ii"; "title" := VStr "Report" ]} : JsObject) !! k
         = IPageRenderData.props page ≫= (fun o => o !! k).
Proof.
  apply (generateMultiPagePdf_page_params Scenario.healthy Scenario.pages 0
           [Booklet.intro; Booklet.cover] Scenario.w0 1).
  vm_compute. reflexivity.
Defined.

(** C6. Let the pages [pre] render and the next page fail with [e],
    whether in its file intake or in its render.  Then
    [generateMultiPagePdf] throws (it returns no buffer) an [Error] whose
    message is a fixed prefix followed by the message of [e], itself the
    error of [fromFile] or of [generatePdf]; and nothing is asked of any
    collaborator after that failure: the pages [post] are not rendered. *)
Theorem generateMultiPagePdf_aborts_on_first_failure (rt : Runtime) (hm : Hummus)
    (this : ref) (pre post : list IPageRenderData.t) (page : IPageRenderData.t)
    (w : World) (buffers : list Buffer) (e : JsThrown) :
  (for_pages rt this 0 pre [] w).1 = Return buffers ->
  (page_step rt this (S (length pre)) page (for_pages rt this 0 pre [] w).2).1 = Throw e ->
  exists msg,
    e = new_Error msg
    /\ ((exists rest, msg = "Error reading file at path: " +:+ rest)
        \/ (exists rest, msg = "Generate PDF Error: " +:+ rest))
    /\ (generateMultiPagePdf rt hm this (pre ++ page :: post) w).1
       = Throw (new_Error ("Generate Multi Page PDF Error: " +:+ msg))
    /\ trace (generateMultiPagePdf rt hm this (pre ++ page :: post) w).2
       = trace (page_step rt this (S (length pre)) page (for_pages rt this 0 pre [] w).2).2
    /\ heap (generateMultiPagePdf rt hm this (pre ++ page :: post) w).2
       = heap (page_step rt this (S (length pre)) page (for_pages rt this 0 pre [] w).2).2.
Proof.
  intros Hpre Hpage.
  assert (Hloop : for_pages rt this 0 (pre ++ page :: post) [] w
                  = (Throw e, (page_step rt this (S (length pre)) page
                                 (for_pages rt this 0 pre [] w).2).2)).
  { rewrite for_pages_app.
    destruct (for_pages rt this 0 pre [] w) as [[bufs|e'] w1]; simpl in *; [|discriminate].
    unfold mbind, M_bind.
    destruct (page_step rt this (S (length pre)) page w1) as [[file|e'] w2];
      simpl in *; congruence. }
  destruct (page_step_run rt this (S (length pre)) page (for_pages rt this 0 pre [] w).2)
    as (evs & _ & Hres).
  rewrite Hpage in Hres. destruct Hres as (_ & msg & -> & Hkind).
  exists msg. split; [reflexivity|]. split; [exact Hkind|].
  destruct (generateMultiPagePdf_frame rt hm this (pre ++ page :: post) w) as (Htr & Hheap).
  rewrite Htr, Hheap, Hloop. simpl. split; [|split; reflexivity].
  rewrite (generateMultiPagePdf_rethrows rt hm this _ w (new_Error msg))
    by (now rewrite Hloop).
  destruct Hkind as [(rest & ->)|(rest & ->)]; reflexivity.
Qed.

Lemma generateMultiPagePdf_aborts_on_first_failure_witness :
  exists msg,
    new_Error ("Error reading file at path: " +:+ dquote +:+ "/templates/missing.html"
               +:+ dquote +:+ newline
               +:+ toString (Scenario.enoent "/templates/missing.html"))
    = new_Error msg
    /\ ((exists rest, msg = "Error reading file at path: " +:+ rest)
        \/ (exists rest, msg = "Generate PDF Error: " +:+ rest))
    /\ (generateMultiPagePdf Scenario.healthy Scenario.pages 0
          ([Booklet.intro] ++ Booklet.missing :: [Booklet.cover]) Scenario.w0).1
       = Throw (new_Error ("Generate Multi Page PDF Error: " +:+ msg))
    /\ trace (generateMultiPagePdf Scenario.healthy Scenario.pages 0
                ([Booklet.intro] ++ Booklet.missing :: [Booklet.cover]) Scenario.w0).2
       = trace (page_step Scenario.healthy 0 2 Booklet.missing
                  (for_pages Scenario.healthy 0 0 [Booklet.intro] [] Scenario.w0).2).2
    /\ heap (generateMultiPagePdf Scenario.healthy Scenario.pages 0
               ([Booklet.intro] ++ Booklet.missing :: [Booklet.cover]) Scenario.w0).2
       = heap (page_step Scenario.healthy 0 2 Booklet.missing
                 (for_pages Scenario.healthy 0 0 [Booklet.intro] [] Scenario.w0).2).2.
Proof.
  apply (generateMultiPagePdf_aborts_on_first_failure Scenario.healthy Scenario.pages 0
           [Booklet.intro] [Booklet.cover] Booklet.missing Scenario.w0
           [[Byte.x3c]]).
  - vm_compute. reflexivity.
  - vm_compute. reflexivity.
Defined.

(** The run of the witness above, spelled out: one page rendered, one
    read refused, and the third page never touched. *)
Example booklet_with_missing_template :
  let run := generateMultiPagePdf Scenario.healthy Scenario.pages 0
               [Booklet.intro; Booklet.missing; Booklet.cover] Scenario.w0 in
  is_Return run.1 = false
  /\ loaded (trace run.2) = ["<p>Introduction</p>"]
  /\ length (launched (trace run.2)) = 1
  /\ list.last (trace run.2)
     = Some (EReadFile "/templates/missing.html"
               (Throw (Scenario.enoent "/templates/missing.html"))).
Proof. vm_compute. repeat split. Qed.

(** ** Which document a page is rendered from *)

Section TemplatePath.
Context (rt : Runtime).

(** The loop body on a page whose [templatePath] is truthy, when the
    read succeeds: the file becomes [data], the options of the page
    replace [pdfOptions], and the render starts from there. *)
Lemma page_step_read_ok (this : ref) (i : nat) (page : IPageRenderData.t)
    (filePath fileContent : string) (w : World) :
  truthy_opt (IPageRenderData.templatePath page) = true ->
  IPageRenderData.templatePath page = Some filePath ->
  readFile rt (trace w) filePath = Return fileContent ->
  page_step rt this i page w
  = generatePdf rt this (Some (page_params i page))
      (setPdfOptions this (default ∅ (IPageRenderData.pdfOptions page))
         {| heap := <[this := {| data := fileContent;
                                 pdfOptions := pdfOptions (heap w this) |}]> (heap w);
            next_ref := next_ref w; console := console w;
            trace := trace w ++ [EReadFile filePath (Return fileContent)] |}).2.
Proof.
  intros Htruthy Hp Hread. rewrite page_step_unfold. unfold page_intake.
  rewrite Htruthy, Hp. simpl default. unfold mbind, M_bind.
  now rewrite (fromFile_read_ok rt this filePath fileContent w Hread).
Qed.

(** The same, when the read fails: the page stops there. *)
Lemma page_step_read_fails (this : ref) (i : nat) (page : IPageRenderData.t)
    (filePath : string) (e : JsThrown) (w : World) :
  truthy_opt (IPageRenderData.templatePath page) = true ->
  IPageRenderData.templatePath page = Some filePath ->
  readFile rt (trace w) filePath = Throw e ->
  page_step rt this i page w
  = (Throw (new_Error ("Error reading file at path: " +:+ dquote +:+ filePath
                       +:+ dquote +:+ newline +:+ toString e)),
     {| heap := heap w; next_ref := next_ref w;
        console := console w ++ [message_or_self e];
        trace := trace w ++ [EReadFile filePath (Throw e)] |}).
Proof.
  intros Htruthy Hp Hread. rewrite page_step_unfold. unfold page_intake.
  rewrite Htruthy, Hp. simpl default. unfold mbind, M_bind.
  now rewrite (fromFile_read_fails rt this filePath e w Hread).
Qed.

(** A page whose [templatePath] is falsy and whose [content] is truthy
    reads no file: [content] becomes [data]. *)
Lemma page_step_content (this : ref) (i : nat) (page : IPageRenderData.t)
    (c : string) (w : World) :
  truthy_opt (IPageRenderData.templatePath page) = false ->
  IPageRenderData.content page = Some c ->
  c <> EmptyString ->
  page_step rt this i page w
  = generatePdf rt this (Some (page_params i page))
      (setPdfOptions this (default ∅ (IPageRenderData.pdfOptions page))
         (fromContent this c w).2).2.
Proof.
  intros Hfalsy Hc Hne. rewrite page_step_unfold. unfold page_intake.
  rewrite Hfalsy, Hc. destruct c; [congruence | reflexivity].
Qed.

End TemplatePath.

(** For a page that has a [content] and a non-empty [templatePath], the
    loop body starts by reading the file at [templatePath]; when the read
    succeeds, the contents of the file become [data] and are the only
    document handed to the engine, the one that is rendered if the page
    renders; when the read fails, the page throws and no document is
    loaded at all, [content] included. *)
Lemma page_step_with_template (rt : Runtime) (this : ref) (i : nat)
    (page : IPageRenderData.t) (c filePath : string) (w : World) :
  IPageRenderData.content page = Some c ->
  IPageRenderData.templatePath page = Some filePath ->
  filePath <> EmptyString ->
  (exists evs,
      new_events w (page_step rt this i page w).2
      = EReadFile filePath (readFile rt (trace w) filePath) :: evs)
  /\ (forall fileContent,
        readFile rt (trace w) filePath = Return fileContent ->
        data (heap (page_step rt this i page w).2 this) = fileContent
        /\ (forall html, html ∈ loaded (new_events w (page_step rt this i page w).2) ->
                         html = fileContent)
        /\ (is_Return (page_step rt this i page w).1 = true ->
            loaded (new_events w (page_step rt this i page w).2) = [fileContent]))
  /\ (forall e,
        readFile rt (trace w) filePath = Throw e ->
        is_Return (page_step rt this i page w).1 = false
        /\ loaded (new_events w (page_step rt this i page w).2) = []).
Proof.
  intros Hc Hp Hne.
  assert (Htruthy : truthy_opt (IPageRenderData.templatePath page) = true).
  { rewrite Hp. destruct filePath; [congruence | reflexivity]. }
  destruct (readFile rt (trace w) filePath) as [fc|e] eqn:Hread.
  - rewrite (page_step_read_ok rt this i page filePath fc w Htruthy Hp Hread).
    set (w1 := (setPdfOptions this _ _).2).
    destruct (generatePdf_run rt this (Some (page_params i page)) w1)
      as (evs & Htr & Hheap & _ & Hload & Hres).
    assert (Hnew : new_events w (generatePdf rt this (Some (page_params i page)) w1).2
                   = EReadFile filePath (Return fc) :: evs).
    { apply new_events_app. rewrite Htr. subst w1. simpl. now rewrite <- app_assoc. }
    assert (Hdata : data (heap w1 this) = fc).
    { subst w1. simpl. now rewrite !store_same. }
    rewrite Hnew, Hheap, Hdata. rewrite Hdata in Hload, Hres.
    split; [eauto|]. split; [|discriminate].
    intros fc' [= <-]. split; [reflexivity|]. simpl. split.
    + intros html Hin. destruct Hload as [Hl|Hl]; rewrite Hl in Hin.
      * now apply elem_of_nil in Hin.
      * now apply list_elem_of_singleton in Hin.
    + intros Hret. destruct (generatePdf rt this _ w1).1; [|discriminate].
      now destruct Hres as (_ & Hl & _).
  - rewrite (page_step_read_fails rt this i page filePath e w Htruthy Hp Hread). simpl.
    erewrite new_events_app by (simpl; reflexivity).
    split; [eauto|]. split; [discriminate|]. intros e' _. split; reflexivity.
Qed.

(** Where the run of [generateMultiPagePdf] stands once the pages [pre]
    have rendered: it goes on with the loop body of the next page and,
    when that returns, with the remaining pages. *)
Lemma generateMultiPagePdf_from_page (rt : Runtime) (hm : Hummus) (this : ref)
    (pre post : list IPageRenderData.t) (page : IPageRenderData.t) (w : World)
    (buffers : list Buffer) :
  (for_pages rt this 0 pre [] w).1 = Return buffers ->
  let w1 := (for_pages rt this 0 pre [] w).2 in
  let step := page_step rt this (S (length pre)) page w1 in
  let run := generateMultiPagePdf rt hm this (pre ++ page :: post) w in
  exists evs,
    new_events w1 run.2 = new_events w1 step.2 ++ evs
    /\ (is_Return step.1 = false -> evs = [] /\ is_Return run.1 = false).
Proof.
  intros Hpre w1 step run.
  destruct (generateMultiPagePdf_frame rt hm this (pre ++ page :: post) w) as (Htr & _).
  fold run in Htr.
  destruct (page_step_run rt this (S (length pre)) page w1) as (evs1 & Htr1 & _).
  fold step in Htr1.
  assert (Hloop : for_pages rt this 0 (pre ++ page :: post) [] w
                  = match step with
                    | (Return file, w2) =>
                        for_pages rt this (S (length pre)) post (buffers ++ [file]) w2
                    | (Throw e, w2) => (Throw e, w2)
                    end).
  { rewrite for_pages_app. subst step w1.
    destruct (for_pages rt this 0 pre [] w) as [[bufs|e'] w1]; simpl in *; [|discriminate].
    injection Hpre as ->. reflexivity. }
  assert (Hrun : is_Return step.1 = false -> is_Return run.1 = false).
  { intros Hstep. subst run. unfold generateMultiPagePdf. run_monad. rewrite Hloop.
    destruct step as [[file|e] w2]; [discriminate | reflexivity]. }
  rewrite Hloop in Htr. rewrite (new_events_app w1 step.2 evs1 Htr1).
  destruct step as [[file|e] w2] eqn:Hstep; simpl in Htr1, Hrun.
  - destruct (for_pages_run rt this post (S (length pre)) (buffers ++ [file]) w2)
      as (evs2 & Htr2 & _).
    exists evs2. split; [|discriminate].
    apply new_events_app. now rewrite Htr, Htr2, Htr1, app_assoc.
  - exists []. split; [|auto]. rewrite app_nil_r.
    apply new_events_app. now rewrite Htr.
Qed.

(** C7, as amended. Let a page have a [content] and a non-empty
    [templatePath], and let the pages before it render.  The run of
    [generateMultiPagePdf] goes on by reading the file at [templatePath].
    When the read succeeds, the contents of the file become [data] and the
    next document handed to the engine, if any, is that file: it is what
    the page is rendered from, not [content].  When the read fails, the
    run throws and no document is loaded any more. *)
Theorem page_with_template_renders_the_file (rt : Runtime) (hm : Hummus) (this : ref)
    (pre post : list IPageRenderData.t) (page : IPageRenderData.t)
    (c filePath : string) (w : World) (buffers : list Buffer) :
  IPageRenderData.content page = Some c ->
  IPageRenderData.templatePath page = Some filePath ->
  filePath <> EmptyString ->
  (for_pages rt this 0 pre [] w).1 = Return buffers ->
  let w1 := (for_pages rt this 0 pre [] w).2 in
  let step := page_step rt this (S (length pre)) page w1 in
  let run := generateMultiPagePdf rt hm this (pre ++ page :: post) w in
  (exists evs,
      new_events w1 run.2 = EReadFile filePath (readFile rt (trace w1) filePath) :: evs)
  /\ (forall fileContent,
        readFile rt (trace w1) filePath = Return fileContent ->
        data (heap step.2 this) = fileContent
        /\ (forall html, head (loaded (new_events w1 run.2)) = Some html ->
                         html = fileContent)
        /\ (is_Return step.1 = true ->
            head (loaded (new_events w1 run.2)) = Some fileContent))
  /\ (forall e,
        readFile rt (trace w1) filePath = Throw e ->
        is_Return run.1 = false /\ loaded (new_events w1 run.2) = []).
Proof.
  intros Hc Hp Hne Hpre w1 step run.
  destruct (generateMultiPagePdf_from_page rt hm this pre post page w buffers Hpre)
    as (evs' & Hnew & Hstop).
  fold w1 step run in Hnew, Hstop.
  destruct (page_step_with_template rt this (S (length pre)) page c filePath w1 Hc Hp Hne)
    as ((evs & Hfirst) & Hok & Hfail).
  fold step in Hfirst, Hok, Hfail.
  rewrite Hnew, Hfirst. split; [simpl; eauto|]. split.
  - intros fc Hread. destruct (Hok fc Hread) as (Hdata & Honly & Hret).
    rewrite Hfirst in Honly, Hret. simpl in Honly, Hret.
    split; [exact Hdata|]. rewrite loaded_app. simpl. split.
    + intros html Hhead. destruct (loaded evs) as [|doc docs] eqn:Hdocs.
      * destruct (is_Return step.1) eqn:Hstep.
        -- now specialize (Hret eq_refl).
        -- destruct (Hstop eq_refl) as (-> & _). discriminate.
      * simpl in Hhead. injection Hhead as <-. apply Honly. apply list_elem_of_here.
    + intros Hstep. now rewrite (Hret Hstep).
  - intros e Hread. destruct (Hfail e Hread) as (Hthrow & Hnone).
    destruct (Hstop Hthrow) as (-> & Hrun). split; [exact Hrun|].
    rewrite app_nil_r. now rewrite Hfirst in Hnone.
Qed.

Lemma page_with_template_renders_the_file_witness :
  let w1 := (for_pages Scenario.healthy 0 0 [Booklet.intro] [] Scenario.w0).2 in
  let run := generateMultiPagePdf Scenario.healthy Scenario.pages 0
               ([Booklet.intro] ++ Booklet.cover :: []) Scenario.w0 in
  data (heap (page_step Scenario.healthy 0 2 Booklet.cover w1).2 0) = "<h1>Cover</h1>"
  /\ head (loaded (new_events w1 run.2)) = Some "<h1>Cover</h1>".
Proof.
  destruct (page_with_template_renders_the_file Scenario.healthy Scenario.pages 0
              [Booklet.intro] [] Booklet.cover
              "<p>ignored</p>" "/templates/cover.html" Scenario.w0 [[Byte.x3c]]
              eq_refl eq_refl ltac:(discriminate) eq_refl) as (_ & Hok & _).
  destruct (Hok "<h1>Cover</h1>" eq_refl) as (Hdata & _ & Hloaded).
  split; [exact Hdata | apply Hloaded; reflexivity].
Defined.

(** C7, as stated, fails on a page whose [templatePath] is the empty
    string: the page has both a [content] and a [templatePath], no file is
    read, and the document that is loaded and printed is the literal
    [content]. *)
Lemma page_with_empty_template_path_renders_content :
  let run := generateMultiPagePdf Scenario.healthy Scenario.pages 0
               [Booklet.blank_path] Scenario.w0 in
  IPageRenderData.content Booklet.blank_path = Some "<p>inline</p>"
  /\ IPageRenderData.templatePath Booklet.blank_path = Some EmptyString
  /\ is_Return run.1 = true
  /\ read_paths (trace run.2) = []
  /\ loaded (trace run.2) = ["<p>inline</p>"]
  /\ data (heap run.2 0) = "<p>inline</p>".
Proof. vm_compute. repeat split. Qed.

(** ** More on [generatePdf] *)

(** X1. A call of [generatePdf] that returns has made exactly six calls,
    in this order: launch, new page, evaluate with the parameters (or
    [{ pageNumber: 1 }] when none were given), load [this.data], print
    with [this.pdfOptions], close the browser it launched.  It returns
    the buffer that was printed, logs nothing and leaves no session
    open. *)
Theorem generatePdf_success (rt : Runtime) (this : ref) (props : option JsObject)
    (w : World) (pdfBuffer : Buffer) :
  (generatePdf rt this props w).1 = Return pdfBuffer ->
  (exists browser page,
      new_events w (generatePdf rt this props w).2
      = [ ELaunch (Return browser);
          ENewPage browser (Return page);
          EEvaluate page (default {[ "pageNumber" := VNum 1 ]} props) (Return tt);
          ESetContent page (data (heap w this)) (Return tt);
          EPdf page (pdfOptions (heap w this)) (Return pdfBuffer);
          EClose browser (Return tt) ])
  /\ console (generatePdf rt this props w).2 = console w
  /\ open_sessions (new_events w (generatePdf rt this props w).2) = [].
Proof.
  intros Hret.
  destruct (generatePdf_returns rt this props w pdfBuffer Hret) as (browser & page & Hnew).
  split; [eauto|]. split.
  - revert Hret. unfold generatePdf. run_monad.
    repeat case_oracle; intros Hret; try discriminate. reflexivity.
  - rewrite Hnew. unfold open_sessions. simpl.
    destruct (decide_rel elem_of _ _) as [|Hn]; [reflexivity|].
    exfalso. apply Hn. apply list_elem_of_here.
Qed.

Lemma generatePdf_success_witness :
  (exists browser page,
      new_events Scenario.w0 (generatePdf Scenario.healthy 0 None Scenario.w0).2
      = [ ELaunch (Return browser);
          ENewPage browser (Return page);
          EEvaluate page (default {[ "pageNumber" := VNum 1 ]} None) (Return tt);
          ESetContent page (data (heap Scenario.w0 0)) (Return tt);
          EPdf page (pdfOptions (heap Scenario.w0 0)) (Return [Byte.x00]);
          EClose browser (Return tt) ])
  /\ console (generatePdf Scenario.healthy 0 None Scenario.w0).2 = console Scenario.w0
  /\ open_sessions (new_events Scenario.w0 (generatePdf Scenario.healthy 0 None Scenario.w0).2)
     = [].
Proof.
  apply (generatePdf_success Scenario.healthy 0 None Scenario.w0 [Byte.x00]).
  reflexivity.
Defined.

(** No path through [generatePdf] reads a file. *)
Lemma generatePdf_reads_no_file (rt : Runtime) (this : ref) (props : option JsObject)
    (w : World) :
  read_paths (new_events w (generatePdf rt this props w).2) = [].
Proof.
  destruct (generatePdf_run rt this props w) as (evs & Htr & _ & _ & _ & Hres).
  rewrite (new_events_app w _ evs Htr). revert Htr Hres.
  unfold generatePdf. run_monad.
  repeat case_oracle; normalise_trace; intros Htr _;
    apply app_inv_head in Htr; subst evs; reflexivity.
Qed.

(** X2. Whatever happens, [generatePdf] writes no field of any generator,
    allocates none, reads no file and launches at most one browser. *)
Theorem generatePdf_frame (rt : Runtime) (this : ref) (props : option JsObject) (w : World) :
  heap (generatePdf rt this props w).2 = heap w
  /\ next_ref (generatePdf rt this props w).2 = next_ref w
  /\ read_paths (new_events w (generatePdf rt this props w).2) = []
  /\ length (launched (new_events w (generatePdf rt this props w).2)) <= 1.
Proof.
  unfold generatePdf. run_monad.
  repeat case_oracle;
    (erewrite new_events_app by (simpl; normalise_trace; reflexivity));
    simpl; repeat split; lia.
Qed.

(** X3. A call of [generatePdf] that throws does so because the last call
    it made threw, every call before having returned; what it throws is a
    new [Error] whose message is ["Generate PDF Error: "] followed by the
    message of that failure (by its text when it has no message), and that
    message is what it logged, once. *)
Theorem generatePdf_rethrows_the_cause (rt : Runtime) (this : ref)
    (props : option JsObject) (w : World) (error : JsThrown) :
  (generatePdf rt this props w).1 = Throw error ->
  exists evs ev cause,
    new_events w (generatePdf rt this props w).2 = evs ++ [ev]
    /\ Forall (fun ev' => thrown ev' = None) evs
    /\ thrown ev = Some cause
    /\ error = new_Error ("Generate PDF Error: " +:+ template (message_or_self cause))
    /\ console (generatePdf rt this props w).2 = console w ++ [message_or_self cause].
Proof.
  unfold generatePdf. run_monad.
  repeat case_oracle; intros Hthrow; try discriminate;
    (erewrite new_events_app by (simpl; normalise_trace; reflexivity));
    injection Hthrow as <-;
    match goal with
    | |- exists evs ev cause, ?l = _ /\ _ =>
        exists (removelast l), (List.last l (ELaunch (Return 0)))
    end; simpl; eexists;
    (split; [reflexivity|]); (split; [repeat constructor|]);
    (split; [reflexivity|]); split; reflexivity.
Qed.

Lemma generatePdf_rethrows_the_cause_witness :
  exists evs ev cause,
    new_events Scenario.w0 (generatePdf Scenario.printer_down 0 None Scenario.w0).2
    = evs ++ [ev]
    /\ Forall (fun ev' => thrown ev' = None) evs
    /\ thrown ev = Some cause
    /\ new_Error "Generate PDF Error: Protocol error (Page.printToPDF): Printing failed"
       = new_Error ("Generate PDF Error: " +:+ template (message_or_self cause))
    /\ console (generatePdf Scenario.printer_down 0 None Scenario.w0).2
       = console Scenario.w0 ++ [message_or_self cause].
Proof.
  apply (generatePdf_rethrows_the_cause Scenario.printer_down 0 None Scenario.w0).
  reflexivity.
Defined.

Lemma generatePdf_throws_unreleased_witness :
  launched (new_events Scenario.w0 (generatePdf Scenario.printer_down 0 None Scenario.w0).2)
  = [0]
  /\ (open_sessions
        (new_events Scenario.w0 (generatePdf Scenario.printer_down 0 None Scenario.w0).2)
      = [0]
      \/ exists e', EClose 0 (Throw e')
                    ∈ new_events Scenario.w0
                        (generatePdf Scenario.printer_down 0 None Scenario.w0).2).
Proof.
  apply (generatePdf_throws_unreleased Scenario.printer_down 0 None Scenario.w0 0
           (new_Error "Generate PDF Error: Protocol error (Page.printToPDF): Printing failed"));
    reflexivity.
Defined.

(** ** More on the intake *)

(** X5. When the read succeeds, [fromFile] returns the reference it was
    called on, leaves every generator exactly as [fromContent] called
    with the contents of the file would, reads that one file and logs
    nothing. *)
Theorem fromFile_is_fromContent_of_the_file (rt : Runtime) (this : ref)
    (filePath fileContent : string) (w : World) :
  readFile rt (trace w) filePath = Return fileContent ->
  (fromFile rt this filePath w).1 = Return this
  /\ heap (fromFile rt this filePath w).2 = heap (fromContent this fileContent w).2
  /\ new_events w (fromFile rt this filePath w).2 = [EReadFile filePath (Return fileContent)]
  /\ console (fromFile rt this filePath w).2 = console w.
Proof.
  intros Hread. rewrite (fromFile_read_ok rt this filePath fileContent w Hread).
  simpl. repeat split. now apply new_events_app.
Qed.

Lemma fromFile_is_fromContent_of_the_file_witness :
  (fromFile Scenario.healthy 0 "/templates/cover.html" Scenario.w0).1 = Return 0
  /\ heap (fromFile Scenario.healthy 0 "/templates/cover.html" Scenario.w0).2
     = heap (fromContent 0 "<h1>Cover</h1>" Scenario.w0).2
  /\ new_events Scenario.w0 (fromFile Scenario.healthy 0 "/templates/cover.html" Scenario.w0).2
     = [EReadFile "/templates/cover.html" (Return "<h1>Cover</h1>")]
  /\ console (fromFile Scenario.healthy 0 "/templates/cover.html" Scenario.w0).2
     = console Scenario.w0.
Proof.
  apply (fromFile_is_fromContent_of_the_file Scenario.healthy 0 "/templates/cover.html"
           "<h1>Cover</h1>" Scenario.w0).
  reflexivity.
Defined.

(** X6. Intake feeds rendering: once [fromContent html] and
    [setPdfOptions options] have been called on a generator, in either
    order, a call of [generatePdf] on it that returns has loaded [html]
    and printed with [options], whatever the generator held before. *)
Theorem generatePdf_renders_the_current_fields (rt : Runtime) (this : ref)
    (html : string) (options : PDFOptions) (props : option JsObject) (w : World)
    (pdfBuffer : Buffer) :
  let w1 := (setPdfOptions this options (fromContent this html w).2).2 in
  let w2 := (fromContent this html (setPdfOptions this options w).2).2 in
  ((generatePdf rt this props w1).1 = Return pdfBuffer ->
   loaded (new_events w1 (generatePdf rt this props w1).2) = [html]
   /\ printed_options (new_events w1 (generatePdf rt this props w1).2) = [options])
  /\ ((generatePdf rt this props w2).1 = Return pdfBuffer ->
      loaded (new_events w2 (generatePdf rt this props w2).2) = [html]
      /\ printed_options (new_events w2 (generatePdf rt this props w2).2) = [options]).
Proof.
  intros w1 w2. split; intros Hret;
    destruct (generatePdf_returns rt this props _ pdfBuffer Hret) as (b & pg & ->);
    subst w1 w2; simpl; rewrite !store_same; simpl; split; reflexivity.
Qed.

Lemma generatePdf_renders_the_current_fields_witness :
  let w1 := (setPdfOptions 0 {[ "format" := VStr "Letter" ]}
               (fromContent 0 "<h1>Hello, World!</h1>" Scenario.w0).2).2 in
  loaded (new_events w1 (generatePdf Scenario.healthy 0 None w1).2) = ["<h1>Hello, World!</h1>"]
  /\ printed_options (new_events w1 (generatePdf Scenario.healthy 0 None w1).2)
     = [{[ "format" := VStr "Letter" ]}].
Proof.
  destruct (generatePdf_renders_the_current_fields Scenario.healthy 0
              "<h1>Hello, World!</h1>" {[ "format" := VStr "Letter" ]} None Scenario.w0
              [Byte.x3c]) as (Hfirst & _).
  apply Hfirst. reflexivity.
Defined.

(** ** More on [generateMultiPagePdf] *)

Lemma printed_options_app (l k : list Event) :
  printed_options (l ++ k) = printed_options l ++ printed_options k.
Proof. apply omap_app. Qed.

Lemma printed_buffers_app (l k : list Event) :
  printed_buffers (l ++ k) = printed_buffers l ++ printed_buffers k.
Proof. apply omap_app. Qed.

Lemma read_paths_app (l k : list Event) :
  read_paths (l ++ k) = read_paths l ++ read_paths k.
Proof. apply omap_app. Qed.

Section MorePages.
Context (rt : Runtime) (hm : Hummus).

(** The intake of a page adds to the trace the read of its template, or
    nothing. *)
Lemma page_intake_events (this : ref) (page : IPageRenderData.t) (w : World) :
  exists evs,
    trace (page_intake rt this page w).2 = trace w ++ evs
    /\ (evs = [] \/ exists filePath r, evs = [EReadFile filePath r]).
Proof.
  unfold page_intake.
  destruct (truthy_opt (IPageRenderData.templatePath page)).
  - set (p := default EmptyString (IPageRenderData.templatePath page)).
    unfold mbind, M_bind.
    destruct (readFile rt (trace w) p) as [c|e] eqn:Hread.
    + rewrite (fromFile_read_ok rt this p c w Hread). simpl. eauto 6.
    + rewrite (fromFile_read_fails rt this p e w Hread). simpl. eauto 6.
  - exists []. rewrite app_nil_r.
    destruct (truthy_opt (IPageRenderData.content page)); simpl; auto.
Qed.

(** A page that renders: one buffer printed, with the options of the page
    or [{}], which the generator keeps, from the document the generator
    holds afterwards. *)
Lemma page_step_returns (this : ref) (i : nat) (page : IPageRenderData.t) (w : World)
    (file : Buffer) :
  (page_step rt this i page w).1 = Return file ->
  exists evs,
    trace (page_step rt this i page w).2 = trace w ++ evs
    /\ printed_buffers evs = [file]
    /\ printed_options evs = [default ∅ (IPageRenderData.pdfOptions page)]
    /\ pdfOptions (heap (page_step rt this i page w).2 this)
       = default ∅ (IPageRenderData.pdfOptions page)
    /\ loaded evs = [data (heap (page_step rt this i page w).2 this)].
Proof.
  rewrite page_step_unfold.
  destruct (page_intake_events this page w) as (evs1 & Htr1 & Hevs1).
  destruct (page_intake rt this page w) as [[u|e] w1]; simpl in Htr1; [|discriminate].
  set (w2 := (setPdfOptions this _ w1).2). intros Hret.
  destruct (generatePdf_returns rt this _ w2 file Hret) as (b & pg & Hnew).
  destruct (generatePdf_run rt this (Some (page_params i page)) w2)
    as (evs2 & Htr2 & Hheap & _).
  rewrite (new_events_app w2 _ evs2 Htr2) in Hnew. subst evs2.
  exists (evs1 ++ new_events w2 (generatePdf rt this (Some (page_params i page)) w2).2).
  rewrite (new_events_app w2 _ _ Htr2), Hheap.
  assert (Hopts : pdfOptions (heap w2 this) = default ∅ (IPageRenderData.pdfOptions page)).
  { subst w2. simpl. now rewrite store_same. }
  split; [|rewrite printed_buffers_app, printed_options_app, loaded_app, Hopts;
           destruct Hevs1 as [->|(p & r & ->)]; simpl; auto].
  rewrite Htr2. subst w2. simpl. rewrite Htr1. now rewrite app_assoc.
Qed.

(** A loop that completes: what was printed, page by page. *)
Lemma for_pages_returns (this : ref) (pageData : list IPageRenderData.t) :
  forall (i : nat) (buffers : list Buffer) (w : World) (out : list Buffer),
    (for_pages rt this i pageData buffers w).1 = Return out ->
    exists evs,
      trace (for_pages rt this i pageData buffers w).2 = trace w ++ evs
      /\ out = buffers ++ printed_buffers evs
      /\ printed_options evs
         = (fun page => default ∅ (IPageRenderData.pdfOptions page)) <$> pageData
      /\ (forall page, list.last pageData = Some page ->
            pdfOptions (heap (for_pages rt this i pageData buffers w).2 this)
            = default ∅ (IPageRenderData.pdfOptions page)).
Proof.
  induction pageData as [|page rest IH]; intros i buffers w out.
  - simpl. intros [= <-]. exists []. rewrite !app_nil_r. repeat split. discriminate.
  - simpl. unfold mbind, M_bind.
    pose proof (page_step_returns this (S i) page w) as Hstep.
    destruct (page_step rt this (S i) page w) as [[file|e] w1]; simpl in Hstep; [|discriminate].
    destruct (Hstep file eq_refl) as (evs1 & Htr1 & Hbuf1 & Hopt1 & Hheap1 & _).
    intros Hret. destruct (IH (S i) (buffers ++ [file]) w1 out Hret)
      as (evs2 & Htr2 & Hout & Hopts & Hlast).
    exists (evs1 ++ evs2). split; [|split; [|split]].
    + now rewrite Htr2, Htr1, app_assoc.
    + now rewrite printed_buffers_app, Hbuf1, Hout, <- app_assoc.
    + now rewrite printed_options_app, Hopt1, Hopts.
    + intros pg Hpg. destruct rest as [|page' rest'].
      * simpl in Hpg. injection Hpg as <-. simpl. exact Hheap1.
      * apply Hlast. exact Hpg.
Qed.

End MorePages.

(** X7. When [generateMultiPagePdf] returns, its result is what
    [mergePDFs] made of the buffers that were printed, one per page and in
    the order of the pages. *)
Theorem generateMultiPagePdf_merges_what_was_printed (rt : Runtime) (hm : Hummus)
    (this : ref) (pageData : list IPageRenderData.t) (w : World) (out : Buffer) :
  (generateMultiPagePdf rt hm this pageData w).1 = Return out ->
  length (printed_buffers (new_events w (generateMultiPagePdf rt hm this pageData w).2))
  = length pageData
  /\ (mergePDFs hm
        (printed_buffers (new_events w (generateMultiPagePdf rt hm this pageData w).2))).1
     = Return out.
Proof.
  intros Hret.
  destruct (generateMultiPagePdf_frame rt hm this pageData w) as (Htr & _).
  revert Hret. unfold generateMultiPagePdf at 1. run_monad.
  pose proof (for_pages_returns rt this pageData 0 [] w) as Hloop.
  pose proof (for_pages_run rt this pageData 0 [] w) as (evs' & Htr' & _ & Hlen).
  destruct (for_pages rt this 0 pageData [] w) as [[buffers|e] w1] eqn:Hfor;
    simpl in *; [|discriminate].
  destruct (Hloop buffers eq_refl) as (evs & Hevs & Hbufs & _).
  destruct (Hlen buffers eq_refl) as (_ & Hcount).
  rewrite (new_events_app w _ evs) by (now rewrite Htr).
  simpl in Hbufs. subst buffers.
  destruct (mergePDFs hm (printed_buffers evs)).1 as [total|e] eqn:Hmerge; simpl; [|discriminate].
  intros [= <-]. split; [exact Hcount | reflexivity].
Qed.

Lemma generateMultiPagePdf_merges_what_was_printed_witness :
  length (printed_buffers
            (new_events Scenario.w0
               (generateMultiPagePdf Scenario.healthy Scenario.pages 0
                  [Booklet.intro; Booklet.cover] Scenario.w0).2))
  = length [Booklet.intro; Booklet.cover]
  /\ (mergePDFs Scenario.pages
        (printed_buffers
           (new_events Scenario.w0
              (generateMultiPagePdf Scenario.healthy Scenario.pages 0
                 [Booklet.intro; Booklet.cover] Scenario.w0).2))).1
     = Return [Byte.x3c; Byte.x3c].
Proof.
  apply (generateMultiPagePdf_merges_what_was_printed Scenario.healthy Scenario.pages 0
           [Booklet.intro; Booklet.cover] Scenario.w0 [Byte.x3c; Byte.x3c]).
  vm_compute. reflexivity.
Defined.

(** X8. When [generateMultiPagePdf] returns, each page was printed with
    its own [pdfOptions], or with [{}] when it has none: never with the
    options the generator was given before; and the generator is left
    with the options of the last page. *)
Theorem generateMultiPagePdf_prints_with_page_options (rt : Runtime) (hm : Hummus)
    (this : ref) (pageData : list IPageRenderData.t) (w : World) (out : Buffer) :
  (generateMultiPagePdf rt hm this pageData w).1 = Return out ->
  printed_options (new_events w (generateMultiPagePdf rt hm this pageData w).2)
  = (fun page => default ∅ (IPageRenderData.pdfOptions page)) <$> pageData
  /\ (forall page, list.last pageData = Some page ->
        pdfOptions (heap (generateMultiPagePdf rt hm this pageData w).2 this)
        = default ∅ (IPageRenderData.pdfOptions page)).
Proof.
  intros Hret.
  destruct (generateMultiPagePdf_frame rt hm this pageData w) as (Htr & Hheap).
  rewrite Hheap. revert Hret. unfold generateMultiPagePdf at 1. run_monad.
  pose proof (for_pages_returns rt this pageData 0 [] w) as Hloop.
  destruct (for_pages rt this 0 pageData [] w) as [[buffers|e] w1] eqn:Hfor;
    simpl in *; [|discriminate].
  intros _. destruct (Hloop buffers eq_refl) as (evs & Hevs & _ & Hopts & Hlast).
  rewrite (new_events_app w _ evs) by (now rewrite Htr).
  split; [exact Hopts | exact Hlast].
Qed.

Lemma generateMultiPagePdf_prints_with_page_options_witness :
  printed_options
    (new_events Scenario.w0
       (generateMultiPagePdf Scenario.healthy Scenario.pages 0
          [Booklet.cover; Booklet.intro] Scenario.w0).2)
  = [{[ "format" := VStr "Letter" ]}; ∅]
  /\ pdfOptions (heap (generateMultiPagePdf Scenario.healthy Scenario.pages 0
                         [Booklet.cover; Booklet.intro] Scenario.w0).2 0)
     = ∅.
Proof.
  destruct (generateMultiPagePdf_prints_with_page_options Scenario.healthy Scenario.pages 0
              [Booklet.cover; Booklet.intro] Scenario.w0 [Byte.x3c; Byte.x3c])
    as (Hopts & Hlast).
  - vm_compute. reflexivity.
  - split; [exact Hopts | exact (Hlast Booklet.intro eq_refl)].
Defined.

(** X9. On the empty list of pages, [generateMultiPagePdf] renders
    nothing and hands an empty array to [mergePDFs]; as muhammara refuses
    the [undefined] base, the call throws, with the failure of muhammara
    wrapped in its message, having called neither [fs] nor puppeteer and
    written no field. *)
Theorem generateMultiPagePdf_of_no_page_throws (rt : Runtime) (hm : Hummus) (this : ref)
    (w : World) :
  rejects_undefined hm ->
  exists cause,
    (mergePDFs hm []).1 = Throw cause
    /\ (generateMultiPagePdf rt hm this [] w).1
       = Throw (new_Error ("Generate Multi Page PDF Error: "
                           +:+ template (message_or_self cause)))
    /\ trace (generateMultiPagePdf rt hm this [] w).2 = trace w
    /\ heap (generateMultiPagePdf rt hm this [] w).2 = heap w.
Proof.
  intros Hrej. destruct (mergePDFs_undefined_base hm Hrej) as (cause & Hmerge).
  exists cause. unfold generateMultiPagePdf. run_monad. rewrite Hmerge. simpl. auto.
Qed.

Lemma generateMultiPagePdf_of_no_page_throws_witness :
  exists cause,
    (mergePDFs Scenario.pages []).1 = Throw cause
    /\ (generateMultiPagePdf Scenario.healthy Scenario.pages 0 [] Scenario.w0).1
       = Throw (new_Error ("Generate Multi Page PDF Error: "
                           +:+ template (message_or_self cause)))
    /\ trace (generateMultiPagePdf Scenario.healthy Scenario.pages 0 [] Scenario.w0).2
       = trace Scenario.w0
    /\ heap (generateMultiPagePdf Scenario.healthy Scenario.pages 0 [] Scenario.w0).2
       = heap Scenario.w0.
Proof.
  apply (generateMultiPagePdf_of_no_page_throws Scenario.healthy Scenario.pages 0 Scenario.w0).
  exact I.
Defined.

(** X10. When every page has rendered and [mergePDFs] then throws,
    [generateMultiPagePdf] throws too, the failure of the merge wrapped in
    its message like that of a page; the renders have all taken place. *)
Theorem generateMultiPagePdf_wraps_a_failed_merge (rt : Runtime) (hm : Hummus) (this : ref)
    (pageData : list IPageRenderData.t) (w : World) (buffers : list Buffer)
    (cause : JsThrown) :
  (for_pages rt this 0 pageData [] w).1 = Return buffers ->
  (mergePDFs hm buffers).1 = Throw cause ->
  (generateMultiPagePdf rt hm this pageData w).1
  = Throw (new_Error ("Generate Multi Page PDF Error: " +:+ template (message_or_self cause)))
  /\ length (printed_buffers (new_events w (generateMultiPagePdf rt hm this pageData w).2))
     = length pageData.
Proof.
  intros Hloop Hmerge.
  destruct (generateMultiPagePdf_frame rt hm this pageData w) as (Htr & _).
  destruct (for_pages_returns rt this pageData 0 [] w buffers Hloop) as (evs & Hevs & Hbufs & _).
  destruct (for_pages_run rt this pageData 0 [] w) as (evs' & _ & _ & Hlen).
  destruct (Hlen buffers Hloop) as (_ & Hcount).
  rewrite (new_events_app w _ evs) by (now rewrite Htr).
  simpl in Hbufs. rewrite <- Hbufs. split; [|exact Hcount].
  unfold generateMultiPagePdf. run_monad.
  destruct (for_pages rt this 0 pageData [] w) as [[bufs|e] w1]; simpl in *; [|discriminate].
  injection Hloop as ->. now rewrite Hmerge.
Qed.

(** A writer that refuses every append: merging needs a single buffer. *)
Lemma generateMultiPagePdf_wraps_a_failed_merge_witness :
  let single : Hummus :=
    {| Reader := Reader Scenario.pages; Writer := Writer Scenario.pages;
       PDFRStreamForBuffer := PDFRStreamForBuffer Scenario.pages;
       createWriterToModify := createWriterToModify Scenario.pages;
       appendPDFPagesFromPDF := fun _ _ => Throw (new_Error "Unable to append page");
       pdfWriter_end := pdfWriter_end Scenario.pages |} in
  (generateMultiPagePdf Scenario.healthy single 0 [Booklet.intro; Booklet.cover] Scenario.w0).1
  = Throw (new_Error ("Generate Multi Page PDF Error: "
                      +:+ template (message_or_self (new_Error "Unable to append page"))))
  /\ length (printed_buffers
               (new_events Scenario.w0
                  (generateMultiPagePdf Scenario.healthy single 0
                     [Booklet.intro; Booklet.cover] Scenario.w0).2))
     = length [Booklet.intro; Booklet.cover].
Proof.
  intros single.
  apply (generateMultiPagePdf_wraps_a_failed_merge Scenario.healthy single 0
           [Booklet.intro; Booklet.cover] Scenario.w0 [[Byte.x3c]; [Byte.x3c]]
           (new_Error "Unable to append page")).
  - vm_compute. reflexivity.
  - vm_compute. reflexivity.
Defined.

(** Rendering right after an intake that read no file: the document the
    intake left in place is the one that is loaded. *)
Lemma page_render_from (rt : Runtime) (this : ref) (props : option JsObject)
    (options : PDFOptions) (w w1 : World) :
  trace w1 = trace w ->
  read_paths (new_events w (generatePdf rt this props (setPdfOptions this options w1).2).2) = []
  /\ data (heap (generatePdf rt this props (setPdfOptions this options w1).2).2 this)
     = data (heap w1 this)
  /\ (forall html,
        html ∈ loaded (new_events w (generatePdf rt this props
                                       (setPdfOptions this options w1).2).2) ->
        html = data (heap w1 this))
  /\ (is_Return (generatePdf rt this props (setPdfOptions this options w1).2).1 = true ->
      loaded (new_events w (generatePdf rt this props (setPdfOptions this options w1).2).2)
      = [data (heap w1 this)]).
Proof.
  intros Htr1. set (w2 := (setPdfOptions this options w1).2).
  assert (Htr2 : trace w2 = trace w) by (subst w2; simpl; exact Htr1).
  assert (Hdata2 : data (heap w2 this) = data (heap w1 this)).
  { subst w2. simpl. now rewrite store_same. }
  destruct (generatePdf_run rt this props w2) as (evs & Htr & Hheap & _ & Hload & Hres).
  pose proof (generatePdf_reads_no_file rt this props w2) as Hread.
  rewrite (new_events_app w2 _ evs Htr) in Hread.
  rewrite (new_events_app w _ evs) by (now rewrite Htr, Htr2).
  rewrite Hheap, Hdata2. rewrite Hdata2 in Hload, Hres.
  split; [exact Hread|]. split; [reflexivity|]. split.
  - intros html Hin. destruct Hload as [Hl|Hl]; rewrite Hl in Hin.
    + now apply elem_of_nil in Hin.
    + now apply list_elem_of_singleton in Hin.
  - intros Hret. destruct (generatePdf rt this _ w2).1; [|discriminate].
    now destruct Hres as (_ & Hl & _).
Qed.

(** X11. A page whose [templatePath] is absent or empty reads no file.
    It is rendered from its [content] when that is a non-empty string,
    and otherwise (absent, or empty) from whatever document the generator
    already held, which stays in place. *)
Theorem page_without_template (rt : Runtime) (this : ref) (i : nat)
    (page : IPageRenderData.t) (w : World) :
  truthy_opt (IPageRenderData.templatePath page) = false ->
  let document :=
    if truthy_opt (IPageRenderData.content page)
    then default EmptyString (IPageRenderData.content page)
    else data (heap w this) in
  read_paths (new_events w (page_step rt this i page w).2) = []
  /\ data (heap (page_step rt this i page w).2 this) = document
  /\ (forall html, html ∈ loaded (new_events w (page_step rt this i page w).2) ->
                   html = document)
  /\ (is_Return (page_step rt this i page w).1 = true ->
      loaded (new_events w (page_step rt this i page w).2) = [document]).
Proof.
  intros Hfalsy document. rewrite page_step_unfold. unfold page_intake. rewrite Hfalsy.
  subst document. destruct (truthy_opt (IPageRenderData.content page)).
  - pose proof (page_render_from rt this (Some (page_params i page))
                  (default ∅ (IPageRenderData.pdfOptions page)) w
                  (set_this this
                     (fun g => {| data := default EmptyString (IPageRenderData.content page);
                                  pdfOptions := pdfOptions g |}) w).2 eq_refl) as Hrender.
    assert (Hdata : data (heap (set_this this
                     (fun g => {| data := default EmptyString (IPageRenderData.content page);
                                  pdfOptions := pdfOptions g |}) w).2 this)
                    = default EmptyString (IPageRenderData.content page)).
    { simpl. now rewrite store_same. }
    rewrite Hdata in Hrender. exact Hrender.
  - exact (page_render_from rt this (Some (page_params i page))
             (default ∅ (IPageRenderData.pdfOptions page)) w w eq_refl).
Qed.

Lemma page_without_template_witness :
  let w := (fromContent 0 "<p>left over</p>" Scenario.w0).2 in
  loaded (new_events w (page_step Scenario.healthy 0 1 Leaflet.empty_content w).2)
  = ["<p>left over</p>"]
  /\ loaded (new_events w (page_step Scenario.healthy 0 1 Booklet.intro w).2)
     = ["<p>Introduction</p>"].
Proof.
  intros w. split.
  - destruct (page_without_template Scenario.healthy 0 1 Leaflet.empty_content w eq_refl)
      as (_ & _ & _ & Hloaded).
    apply Hloaded. reflexivity.
  - destruct (page_without_template Scenario.healthy 0 1 Booklet.intro w eq_refl)
      as (_ & _ & _ & Hloaded).
    apply Hloaded. reflexivity.
Defined.

(** ** More on [mergePDFs] *)

Lemma forEach_append_app (hm : Hummus) (pre post : list Buffer) :
  forall pdfWriter,
    forEach_append hm pdfWriter (pre ++ post)
    = forEach_append hm pdfWriter pre ≫= (fun pdfWriter' => forEach_append hm pdfWriter' post).
Proof.
  induction pre as [|b pre IH]; intros pdfWriter; [reflexivity|].
  simpl. destruct (PDFRStreamForBuffer hm (Some b)) as [r|e]; [|reflexivity]. simpl.
  destruct (appendPDFPagesFromPDF hm pdfWriter r) as [w'|e]; [|reflexivity]. simpl.
  apply IH.
Qed.

(** X12. One buffer that muhammara cannot read, anywhere after the
    first, makes [mergePDFs] throw what muhammara threw on it, whatever
    follows it in the list: no document is returned for the buffers
    before it.  The caller's array has lost its first element all the
    same. *)
Theorem mergePDFs_rejected_buffer (hm : Hummus) (md : PdfModel hm)
    (first bad : Buffer) (pre post : list Buffer)
    (d : list (Page md)) (ds : list (list (Page md))) (cause : JsThrown) :
  HummusLaws hm md ->
  pages_of md first = Some d ->
  Forall2 (fun b d => pages_of md b = Some d) pre ds ->
  PDFRStreamForBuffer hm (Some bad) = Throw cause ->
  mergePDFs hm (first :: pre ++ bad :: post) = (Throw cause, pre ++ bad :: post).
Proof.
  intros laws Hd Hds Hbad. rewrite mergePDFs_cons.
  pose proof (law_open hm md laws first d Hd) as Hopen.
  destruct (PDFRStreamForBuffer hm (Some first)) as [r|e] eqn:Hr; [|discriminate].
  destruct (law_modify hm md laws first d r Hd Hr) as (w0 & -> & _).
  rewrite forEach_append_app.
  destruct (forEach_append_pages hm md laws pre ds Hds w0) as (w1 & -> & _).
  simpl. now rewrite Hbad.
Qed.

Lemma Headed_laws : HummusLaws Headed.hummus Headed.model.
Proof.
  split.
  - intros b d Hd. simpl in *. unfold Headed.read.
    destruct b as [|[] ps]; try discriminate. reflexivity.
  - intros b d r Hd Hr. exists r. split; [reflexivity|]. simpl in *. unfold Headed.read in Hr.
    destruct b as [|[] ps]; try discriminate. congruence.
  - intros b d r w Hd Hr. exists (w ++ r). split; [reflexivity|]. simpl in *.
    unfold Headed.read in Hr. destruct b as [|[] ps]; try discriminate. congruence.
  - intros w. exists (Byte.x25 :: w). split; reflexivity.
Qed.

Lemma mergePDFs_rejected_buffer_witness :
  mergePDFs Headed.hummus
    ([Byte.x25; Byte.x01] :: [[Byte.x25; Byte.x02]] ++ [Byte.x3c; Byte.x68] :: [[Byte.x25]])
  = (Throw (new_Error "Unable to read PDF file"),
     [[Byte.x25; Byte.x02]] ++ [Byte.x3c; Byte.x68] :: [[Byte.x25]]).
Proof.
  apply (mergePDFs_rejected_buffer Headed.hummus Headed.model
           [Byte.x25; Byte.x01] [Byte.x3c; Byte.x68] [[Byte.x25; Byte.x02]] [[Byte.x25]]
           [Byte.x01] [[Byte.x02]]).
  - exact Headed_laws.
  - reflexivity.
  - repeat constructor.
  - reflexivity.
Defined.

(** ** The stream form *)

Lemma new_fs_events_app (sw sw' : StreamWorld) (fevs : list FsEvent) :
  fs_trace sw' = fs_trace sw ++ fevs -> new_fs_events sw sw' = fevs.
Proof. intros H. unfold new_fs_events. rewrite H. apply drop_app_length. Qed.

Lemma SM_bind_run {A B} (m : SM A) (k : A -> SM B) (sw : StreamWorld) :
  (m ≫= k) sw
  = match m sw with
    | (Return a, sw') => k a sw'
    | (Throw e, sw') => (Throw e, sw')
    end.
Proof. reflexivity. Qed.

Ltac stream_reduce :=
  cbn beta iota zeta delta
    [fst snd world fs_trace close_listeners trace heap console next_ref negb].

(** One statement of the body at a time, so that each new state is
    simplified before the next statement reads it. *)
Ltac stream_step srt :=
  first
    [ rewrite SM_bind_run; stream_reduce
    | match goal with
      | |- context [existsSync srt ?h ?f ?path] =>
          let H := fresh "Hfound" in destruct (existsSync srt h f path) eqn:H; stream_reduce
      | |- context [Date_now srt ?h ?f] =>
          let now := fresh "now" in generalize (Date_now srt h f); intros now
      | |- context [random_10000 srt ?h ?f] =>
          let suffix := fresh "suffix" in generalize (random_10000 srt h f); intros suffix
      end
    | match goal with
      | |- context [match ?o with Return _ => _ | Throw _ => _ end] =>
          let H := fresh "Hcall" in destruct o eqn:H; stream_reduce
      end ].

Ltac stream_cases rt srt :=
  unfold generatePdfStream, stream_try_catch, stream_throw, fs_ask, fs_perform, engine,
    on_close, perform, get_field, console_error;
  change (@mret SM SM_ret) with (fun (A : Type) (a : A) (sw : StreamWorld) => (Return a, sw));
  stream_reduce; repeat stream_step srt.

Ltac stream_path_end :=
  unfold stream_end, stream_options, tempPdfPath, tempFolderPath;
  rewrite <- ?app_assoc; reflexivity.

Ltac stream_path srt c :=
  first
    [ solve [ do 4 eexists; split;
              [eapply (c srt _ _ _ [EExistsSync (tempFolderPath srt) true])
              | stream_path_end]; constructor ]
    | solve [ do 4 eexists; split;
              [eapply (c srt _ _ _ [EExistsSync (tempFolderPath srt) false;
                                    EMkdirSync (tempFolderPath srt) (Return tt)])
              | stream_path_end]; constructor ] ].

(** Every run of [generatePdfStream] follows one of the paths. *)
Lemma generatePdfStream_run (rt : Runtime) (srt : StreamRuntime) (this : ref)
    (props : option JsObject) (sw : StreamWorld) :
  exists raw evs fevs ls,
    StreamPath srt (default {[ "pageNumber" := VNum 1 ]} props)
      (data (heap (world sw) this)) (pdfOptions (heap (world sw) this)) raw evs fevs ls
    /\ generatePdfStream rt srt this props sw = stream_end sw raw evs fevs ls.
Proof.
  stream_cases rt srt;
    repeat match goal with u : unit |- _ => destruct u end;
    first
      [ stream_path srt path_returns
      | stream_path srt path_createReadStream_throws
      | stream_path srt path_pdf_throws
      | stream_path srt path_setContent_throws
      | stream_path srt path_evaluate_throws
      | stream_path srt path_newPage_throws
      | stream_path srt path_launch_throws
      | solve [ do 4 eexists; split; [eapply path_mkdir_throws | stream_path_end] ] ].
Qed.

(** What [stream_end] says of the final state, field by field. *)
Lemma stream_end_facts (sw : StreamWorld) (raw : Outcome handle) (evs : list Event)
    (fevs : list FsEvent) (ls : list (handle * string)) :
  new_events (world sw) (world (stream_end sw raw evs fevs ls).2) = evs
  /\ new_fs_events sw (stream_end sw raw evs fevs ls).2 = fevs
  /\ close_listeners (stream_end sw raw evs fevs ls).2 = close_listeners sw ++ ls
  /\ heap (world (stream_end sw raw evs fevs ls).2) = heap (world sw).
Proof.
  split; [|split; [|split]].
  - apply new_events_app. simpl. destruct evs; [now rewrite app_nil_r | reflexivity].
  - now apply new_fs_events_app.
  - simpl. destruct ls; [now rewrite app_nil_r | reflexivity].
  - reflexivity.
Qed.

Ltac stream_paths rt srt this props sw :=
  let raw := fresh "raw" in
  let evs := fresh "evs" in
  let fevs := fresh "fevs" in
  let ls := fresh "ls" in
  let Hpath := fresh "Hpath" in
  let Hrun := fresh "Hrun" in
  let Hevs := fresh "Hevs" in
  let Hfevs := fresh "Hfevs" in
  let Hls := fresh "Hls" in
  let Hheap := fresh "Hheap" in
  destruct (generatePdfStream_run rt srt this props sw)
    as (raw & evs & fevs & ls & Hpath & Hrun);
  rewrite Hrun in *;
  destruct (stream_end_facts sw raw evs fevs ls) as (Hevs & Hfevs & Hls & Hheap);
  rewrite ?Hevs, ?Hfevs, ?Hls, ?Hheap in *;
  clear Hrun Hevs Hfevs Hls Hheap.

Ltac no_member :=
  repeat match goal with
    | H : _ ∈ _ :: _ |- _ => apply elem_of_cons in H as [H|H]; [try discriminate|]
    | H : _ ∈ [] |- _ => now apply elem_of_nil in H
    end.

(** X13. [generatePdfStream] never calls [browser.close()]: on every
    path, whether it returns a stream or throws, each browser it launched
    stays open.  It writes no field of the generator. *)
Theorem generatePdfStream_never_closes (rt : Runtime) (srt : StreamRuntime) (this : ref)
    (props : option JsObject) (sw : StreamWorld) :
  closed (new_events (world sw) (world (generatePdfStream rt srt this props sw).2)) = []
  /\ open_sessions (new_events (world sw) (world (generatePdfStream rt srt this props sw).2))
     = launched (new_events (world sw) (world (generatePdfStream rt srt this props sw).2))
  /\ heap (world (generatePdfStream rt srt this props sw).2) = heap (world sw).
Proof.
  stream_paths rt srt this props sw.
  destruct Hpath; repeat split.
Qed.

(** X14. A call of [generatePdfStream] that returns a stream has made
    these calls to puppeteer and no other: launch, new page, evaluate with
    the parameters (or [{ pageNumber: 1 }]), load [this.data], print with
    [{ path: tempPdfPath, ...this.pdfOptions }].  The file is named from
    the clock and the random number, inside the folder [temp] next to the
    code; the stream is opened on that path, after the folder was found or
    made. *)
Theorem generatePdfStream_success (rt : Runtime) (srt : StreamRuntime) (this : ref)
    (props : option JsObject) (sw : StreamWorld) (readStream : handle) :
  (generatePdfStream rt srt this props sw).1 = Return readStream ->
  exists browser page now suffix pdfBuffer made_events,
    let tempFolderPath := path_join srt (dirname srt) "temp" in
    let tempPdfPath := path_join srt tempFolderPath (randomFileName now suffix) in
    new_events (world sw) (world (generatePdfStream rt srt this props sw).2)
    = [ ELaunch (Return browser);
        ENewPage browser (Return page);
        EEvaluate page (default {[ "pageNumber" := VNum 1 ]} props) (Return tt);
        ESetContent page (data (heap (world sw) this)) (Return tt);
        EPdf page (object_spread {[ "path" := VStr tempPdfPath ]}
                     (Some (pdfOptions (heap (world sw) this)))) (Return pdfBuffer) ]
    /\ new_fs_events sw (generatePdfStream rt srt this props sw).2
       = made_events ++ [ EDateNow now; ERandom suffix;
                          ECreateReadStream tempPdfPath (Return readStream) ]
    /\ (made_events = [EExistsSync tempFolderPath true]
        \/ made_events = [EExistsSync tempFolderPath false;
                          EMkdirSync tempFolderPath (Return tt)]).
Proof.
  stream_paths rt srt this props sw.
  destruct Hpath as [| | | | | | |made browser page now suffix pdfBuffer stream Hmade];
    intros Hret; try discriminate. injection Hret as ->.
  exists browser, page, now, suffix, pdfBuffer, made.
  split; [reflexivity|]. split; [reflexivity|].
  destruct Hmade; [now left | now right].
Qed.

Lemma generatePdfStream_success_witness :
  exists browser page now suffix pdfBuffer made_events,
    let tempFolderPath := path_join StreamScenario.node (dirname StreamScenario.node) "temp" in
    let tempPdfPath :=
      path_join StreamScenario.node tempFolderPath (randomFileName now suffix) in
    new_events (world StreamScenario.sw0)
      (world (generatePdfStream Scenario.healthy StreamScenario.node 0 None
                StreamScenario.sw0).2)
    = [ ELaunch (Return browser);
        ENewPage browser (Return page);
        EEvaluate page (default {[ "pageNumber" := VNum 1 ]} None) (Return tt);
        ESetContent page (data (heap (world StreamScenario.sw0) 0)) (Return tt);
        EPdf page (object_spread {[ "path" := VStr tempPdfPath ]}
                     (Some (pdfOptions (heap (world StreamScenario.sw0) 0))))
          (Return pdfBuffer) ]
    /\ new_fs_events StreamScenario.sw0
         (generatePdfStream Scenario.healthy StreamScenario.node 0 None StreamScenario.sw0).2
       = made_events ++ [ EDateNow now; ERandom suffix;
                          ECreateReadStream tempPdfPath (Return 4) ]
    /\ (made_events = [EExistsSync tempFolderPath true]
        \/ made_events = [EExistsSync tempFolderPath false;
                          EMkdirSync tempFolderPath (Return tt)]).
Proof.
  apply (generatePdfStream_success Scenario.healthy StreamScenario.node 0 None
           StreamScenario.sw0 4).
  vm_compute. reflexivity.
Defined.

(** X15. [generatePdfStream] starts by asking whether the folder [temp]
    exists, and calls [mkdirSync], on that folder, exactly when the answer
    is no. *)
Theorem generatePdfStream_makes_the_folder_when_absent (rt : Runtime) (srt : StreamRuntime)
    (this : ref) (props : option JsObject) (sw : StreamWorld) :
  let tempFolderPath := path_join srt (dirname srt) "temp" in
  exists found,
    head (new_fs_events sw (generatePdfStream rt srt this props sw).2)
    = Some (EExistsSync tempFolderPath found)
    /\ (found = false <->
        exists r, EMkdirSync tempFolderPath r
                  ∈ new_fs_events sw (generatePdfStream rt srt this props sw).2)
    /\ forall path r,
         EMkdirSync path r ∈ new_fs_events sw (generatePdfStream rt srt this props sw).2 ->
         path = tempFolderPath.
Proof.
  intros dir. subst dir. stream_paths rt srt this props sw.
  destruct Hpath as [cause|made ? Hmade|made ? ? Hmade|made ? ? ? Hmade|made ? ? ? Hmade
                     |made ? ? ? ? ? Hmade|made ? ? ? ? ? ? Hmade|made ? ? ? ? ? ? Hmade];
    try destruct Hmade; simpl; unfold tempFolderPath;
    first
      [ solve [ exists true; split; [reflexivity|]; split;
                [ split; [discriminate | intros (r & Hin); no_member]
                | intros path r Hin; no_member ] ]
      | solve [ exists false; split; [reflexivity|]; split;
                [ split; [intros _; eexists; apply list_elem_of_further, list_elem_of_here
                         | reflexivity]
                | intros path r Hin; no_member; congruence ] ] ].
Qed.

(** X16. When the folder is absent and cannot be made, the call throws
    the failure of [mkdirSync], wrapped like a render failure, before any
    browser is launched; nothing was asked of puppeteer. *)
Theorem generatePdfStream_cannot_make_the_folder (rt : Runtime) (srt : StreamRuntime)
    (this : ref) (props : option JsObject) (sw : StreamWorld) (cause : JsThrown) :
  let tempFolderPath := path_join srt (dirname srt) "temp" in
  existsSync srt (trace (world sw)) (fs_trace sw) tempFolderPath = false ->
  mkdirSync srt (trace (world sw)) (fs_trace sw ++ [EExistsSync tempFolderPath false])
    tempFolderPath = Throw cause ->
  (generatePdfStream rt srt this props sw).1
  = Throw (new_Error ("Generate PDF Error: " +:+ template (message_or_self cause)))
  /\ new_events (world sw) (world (generatePdfStream rt srt this props sw).2) = []
  /\ new_fs_events sw (generatePdfStream rt srt this props sw).2
     = [EExistsSync tempFolderPath false; EMkdirSync tempFolderPath (Throw cause)]
  /\ close_listeners (generatePdfStream rt srt this props sw).2 = close_listeners sw.
Proof.
  intros dir Hfound Hmade. subst dir.
  assert (Hrun : generatePdfStream rt srt this props sw
                 = stream_end sw (Throw cause) []
                     [EExistsSync (path_join srt (dirname srt) "temp") false;
                      EMkdirSync (path_join srt (dirname srt) "temp") (Throw cause)] []).
  { unfold generatePdfStream, stream_try_catch, stream_throw, fs_ask, fs_perform, engine,
      console_error.
    do 2 (rewrite SM_bind_run; stream_reduce). rewrite Hfound. stream_reduce.
    rewrite Hmade. rewrite SM_bind_run. stream_reduce.
    unfold stream_end. rewrite <- ?app_assoc. reflexivity. }
  rewrite Hrun.
  destruct (stream_end_facts sw (Throw cause) []
              [EExistsSync (path_join srt (dirname srt) "temp") false;
               EMkdirSync (path_join srt (dirname srt) "temp") (Throw cause)] [])
    as (Hevs & Hfevs & Hls & _).
  rewrite Hevs, Hfevs. repeat split.
Qed.

Lemma generatePdfStream_cannot_make_the_folder_witness :
  (generatePdfStream Scenario.healthy StreamScenario.read_only 0 None StreamScenario.sw0).1
  = Throw (new_Error ("Generate PDF Error: "
                      +:+ template (message_or_self
                            (new_Error "EROFS: read-only file system, mkdir '/srv/app/dist/temp'"))))
  /\ new_events (world StreamScenario.sw0)
       (world (generatePdfStream Scenario.healthy StreamScenario.read_only 0 None
                 StreamScenario.sw0).2) = []
  /\ new_fs_events StreamScenario.sw0
       (generatePdfStream Scenario.healthy StreamScenario.read_only 0 None StreamScenario.sw0).2
     = [EExistsSync "/srv/app/dist/temp" false;
        EMkdirSync "/srv/app/dist/temp"
          (Throw (new_Error "EROFS: read-only file system, mkdir '/srv/app/dist/temp'"))]
  /\ close_listeners
       (generatePdfStream Scenario.healthy StreamScenario.read_only 0 None StreamScenario.sw0).2
     = close_listeners StreamScenario.sw0.
Proof.
  apply (generatePdfStream_cannot_make_the_folder Scenario.healthy StreamScenario.read_only
           0 None StreamScenario.sw0
           (new_Error "EROFS: read-only file system, mkdir '/srv/app/dist/temp'"));
    reflexivity.
Defined.

(** X17. The options [generatePdfStream] prints with are
    [{ path: tempPdfPath, ...this.pdfOptions }]: when the options of the
    generator have a [path] of their own, it replaces the temporary path,
    and the options printed with are those of the generator, key for key:
    the file is written where they say, not at the temporary path. *)
Theorem generatePdfStream_path_option_wins (rt : Runtime) (srt : StreamRuntime) (this : ref)
    (props : option JsObject) (sw : StreamWorld) (v : JsValue)
    (page : handle) (options : PDFOptions) (r : Outcome Buffer) :
  pdfOptions (heap (world sw) this) !! "path" = Some v ->
  EPdf page options r
    ∈ new_events (world sw) (world (generatePdfStream rt srt this props sw).2) ->
  options !! "path" = Some v
  /\ forall k, options !! k = pdfOptions (heap (world sw) this) !! k.
Proof.
  intros Hpath'.
  assert (Hspread : forall now suffix k,
             stream_options srt (pdfOptions (heap (world sw) this)) now suffix !! k
             = pdfOptions (heap (world sw) this) !! k).
  { intros now suffix k. unfold stream_options. rewrite object_spread_lookup. simpl.
    destruct (pdfOptions (heap (world sw) this) !! k) eqn:Hk; [reflexivity|].
    apply lookup_singleton_ne. intros <-. congruence. }
  stream_paths rt srt this props sw.
  destruct Hpath; intros Hin; no_member; injection Hin as -> -> ->;
    (split; [rewrite Hspread; exact Hpath' | intros k; apply Hspread]).
Qed.

Lemma generatePdfStream_path_option_wins_witness :
  let sw := {| world := (setPdfOptions 0 {[ "path" := VStr "/var/out/report.pdf" ]}
                           (world StreamScenario.sw0)).2;
               fs_trace := []; close_listeners := [] |} in
  ({[ "path" := VStr "/var/out/report.pdf" ]} : PDFOptions) !! "path"
  = Some (VStr "/var/out/report.pdf")
  /\ forall k, ({[ "path" := VStr "/var/out/report.pdf" ]} : PDFOptions) !! k
               = pdfOptions (heap (world sw) 0) !! k.
Proof.
  intros sw.
  apply (generatePdfStream_path_option_wins Scenario.healthy StreamScenario.node 0 None sw
           (VStr "/var/out/report.pdf") 0 {[ "path" := VStr "/var/out/report.pdf" ]}
           (Return [Byte.x3c])).
  - reflexivity.
  - vm_compute. repeat constructor.
Defined.



(** X19. When the file was printed and opening the stream then fails,
    the call throws with the browser still open and the file, written at
    the path that was printed to, left in place: its path is the last one
    handed to [createReadStream], and nothing will unlink it. *)
Theorem generatePdfStream_leaves_the_file_behind (rt : Runtime) (srt : StreamRuntime)
    (this : ref) (props : option JsObject) (sw : StreamWorld) (error : JsThrown)
    (page : handle) (options : PDFOptions) (pdfBuffer : Buffer) :
  (generatePdfStream rt srt this props sw).1 = Throw error ->
  EPdf page options (Return pdfBuffer)
    ∈ new_events (world sw) (world (generatePdfStream rt srt this props sw).2) ->
  exists now suffix cause browser,
    let tempPdfPath :=
      path_join srt (path_join srt (dirname srt) "temp") (randomFileName now suffix) in
    list.last (new_fs_events sw (generatePdfStream rt srt this props sw).2)
    = Some (ECreateReadStream tempPdfPath (Throw cause))
    /\ options = object_spread {[ "path" := VStr tempPdfPath ]}
                   (Some (pdfOptions (heap (world sw) this)))
    /\ close_listeners (generatePdfStream rt srt this props sw).2 = close_listeners sw
    /\ open_sessions (new_events (world sw) (world (generatePdfStream rt srt this props sw).2))
       = [browser].
Proof.
  stream_paths rt srt this props sw.
  destruct Hpath as [cause|made ? Hmade|made ? ? Hmade|made ? ? ? Hmade|made ? ? ? Hmade
                     |made ? ? ? ? ? Hmade
                     |made browser pg now suffix buf cause Hmade
                     |made ? ? ? ? ? ? Hmade];
    intros Hthrow Hin; try discriminate; no_member;
    injection Hin as -> -> ->.
  exists now, suffix, cause, browser. destruct Hmade; repeat split; apply app_nil_r.
Qed.

Lemma generatePdfStream_leaves_the_file_behind_witness :
  exists now suffix cause browser,
    let tempPdfPath :=
      path_join StreamScenario.no_stream
        (path_join StreamScenario.no_stream (dirname StreamScenario.no_stream) "temp")
        (randomFileName now suffix) in
    list.last (new_fs_events StreamScenario.sw0
                 (generatePdfStream Scenario.healthy StreamScenario.no_stream 0 None
                    StreamScenario.sw0).2)
    = Some (ECreateReadStream tempPdfPath (Throw cause))
    /\ ({[ "format" := VStr "A4";
           "path" := VStr "/srv/app/dist/temp/pdf_1700000000002_4242.pdf" ]} : PDFOptions)
       = object_spread {[ "path" := VStr tempPdfPath ]}
           (Some (pdfOptions (heap (world StreamScenario.sw0) 0)))
    /\ close_listeners (generatePdfStream Scenario.healthy StreamScenario.no_stream 0 None
                          StreamScenario.sw0).2
       = close_listeners StreamScenario.sw0
    /\ open_sessions (new_events (world StreamScenario.sw0)
                        (world (generatePdfStream Scenario.healthy StreamScenario.no_stream
                                  0 None StreamScenario.sw0).2))
       = [browser].
Proof.
  apply (generatePdfStream_leaves_the_file_behind Scenario.healthy StreamScenario.no_stream
           0 None StreamScenario.sw0
           (new_Error "Generate PDF Error: The argument 'path' must be a string")
           0 _ [Byte.x3c]).
  - reflexivity.
  - vm_compute. repeat constructor.
Defined.

(** X20. The stream [generatePdfStream] returns carries one more
    listener for its ["close"] event, registered on that stream and
    capturing the path the stream was opened on.  Run, in any state, this
    listener asks for that path to be unlinked, once, and returns normally
    whether the unlink succeeds or fails. *)
Theorem generatePdfStream_cleanup (rt : Runtime) (srt : StreamRuntime) (this : ref)
    (props : option JsObject) (sw : StreamWorld) (readStream : handle) :
  (generatePdfStream rt srt this props sw).1 = Return readStream ->
  exists tempPdfPath,
    list.last (new_fs_events sw (generatePdfStream rt srt this props sw).2)
    = Some (ECreateReadStream tempPdfPath (Return readStream))
    /\ close_listeners (generatePdfStream rt srt this props sw).2
       = close_listeners sw ++ [(readStream, tempPdfPath)]
    /\ forall sw',
         (unlink_listener srt tempPdfPath sw').1 = Return tt
         /\ new_fs_events sw' (unlink_listener srt tempPdfPath sw').2
            = [EUnlink tempPdfPath (unlink srt (trace (world sw')) (fs_trace sw') tempPdfPath)]
         /\ world (unlink_listener srt tempPdfPath sw').2 = world sw'.
Proof.
  stream_paths rt srt this props sw.
  destruct Hpath as [| | | | | | |made browser page now suffix pdfBuffer stream Hmade];
    intros Hret; try discriminate. injection Hret as ->.
  exists (tempPdfPath srt now suffix). split; [destruct Hmade; reflexivity|].
  split; [reflexivity|].
  intros sw'. unfold unlink_listener, fs_perform. simpl.
  split; [reflexivity|]. split; [|reflexivity]. now apply new_fs_events_app.
Qed.

Lemma generatePdfStream_cleanup_witness :
  exists tempPdfPath,
    list.last (new_fs_events StreamScenario.sw0
                 (generatePdfStream Scenario.healthy StreamScenario.node 0 None
                    StreamScenario.sw0).2)
    = Some (ECreateReadStream tempPdfPath (Return 4))
    /\ close_listeners (generatePdfStream Scenario.healthy StreamScenario.node 0 None
                          StreamScenario.sw0).2
       = close_listeners StreamScenario.sw0 ++ [(4, tempPdfPath)]
    /\ forall sw',
         (unlink_listener StreamScenario.node tempPdfPath sw').1 = Return tt
         /\ new_fs_events sw' (unlink_listener StreamScenario.node tempPdfPath sw').2
            = [EUnlink tempPdfPath
                 (unlink StreamScenario.node (trace (world sw')) (fs_trace sw') tempPdfPath)]
         /\ world (unlink_listener StreamScenario.node tempPdfPath sw').2 = world sw'.
Proof.
  apply (generatePdfStream_cleanup Scenario.healthy StreamScenario.node 0 None
           StreamScenario.sw0 4).
  vm_compute. reflexivity.
Defined.

(** ** The name of the temporary file *)

Lemma append_cons (a : Ascii.ascii) (s t : string) : String a s +:+ t = String a (s +:+ t).
Proof. reflexivity. Qed.

Lemma pretty_N_char_digit (x : N) : is_digit (pretty_N_char x) = true.
Proof. unfold pretty_N_char. repeat case_match; reflexivity. Qed.

Lemma pretty_N_go_digits (x : N) :
  forall s, all_digits s = true -> all_digits (pretty_N_go x s) = true.
Proof.
  induction (N.lt_wf_0 x) as [x _ IH]. intros s Hs.
  destruct (decide (x = 0%N)) as [->|Hx]; [now rewrite pretty_N_go_0|].
  rewrite pretty_N_go_step by lia. apply IH.
  - apply N.div_lt; lia.
  - simpl. now rewrite pretty_N_char_digit, Hs.
Qed.

Lemma pretty_N_digits (n : N) : all_digits (pretty n) = true.
Proof.
  unfold pretty, pretty_N. case_decide; [reflexivity|].
  now apply pretty_N_go_digits.
Qed.

(** Two strings of digits, each followed by the same character that is not
    a digit: where the digits stop is where that character stands. *)
Lemma digits_split (c : Ascii.ascii) (d : string) :
  is_digit c = false ->
  forall d' r r',
    all_digits d = true -> all_digits d' = true ->
    d +:+ String c r = d' +:+ String c r' ->
    d = d' /\ r = r'.
Proof.
  intros Hc. induction d as [|a d IH]; intros [|a' d'] r r' Hd Hd' Heq.
  - injection Heq as ->. auto.
  - rewrite append_cons in Heq. injection Heq as <- _.
    simpl in Hd'. rewrite Hc in Hd'. discriminate.
  - rewrite append_cons in Heq. injection Heq as -> _.
    simpl in Hd. rewrite Hc in Hd. discriminate.
  - rewrite !append_cons in Heq. injection Heq as -> Heq.
    simpl in Hd, Hd'. apply andb_prop in Hd as [_ Hd]. apply andb_prop in Hd' as [_ Hd'].
    destruct (IH d' r r' Hd Hd' Heq) as [-> ->]. auto.
Qed.

(** X21. Two temporary files get the same name exactly when both the
    clock and the random number are the same: the names
    [pdf_<now>_<suffix>.pdf] tell the pairs apart. *)
Theorem randomFileName_collision (now suffix now' suffix' : N) :
  randomFileName now suffix = randomFileName now' suffix'
  <-> now = now' /\ suffix = suffix'.
Proof.
  split; [|now intros [-> ->]].
  unfold randomFileName. intros Heq.
  apply (inj (String.append "pdf_")) in Heq.
  apply (digits_split (Ascii.ascii_of_nat 95) _ eq_refl) in Heq as [Hnow Heq];
    [|apply pretty_N_digits|apply pretty_N_digits].
  apply (digits_split (Ascii.ascii_of_nat 46) _ eq_refl) in Heq as [Hsuffix _];
    [|apply pretty_N_digits|apply pretty_N_digits].
  split; eapply (inj pretty); eassumption.
Qed.

Lemma generateMultiPagePdf_renders_all_witness :
  evaluated (new_events Scenario.w0
               (generateMultiPagePdf Scenario.healthy Scenario.pages 0
                  [Booklet.intro; Booklet.cover] Scenario.w0).2)
  = imap (fun j page => page_params (S j) page) [Booklet.intro; Booklet.cover].
Proof.
  apply (generateMultiPagePdf_renders_all Scenario.healthy Scenario.pages 0
           [Booklet.intro; Booklet.cover] Scenario.w0 [Byte.x3c; Byte.x3c]).
  vm_compute. reflexivity.
Defined.
